(** * FocalTechTouch: the WDF device callbacks of [device.c]

    A shallow embedding of the interrupt path ([OnInterruptIsr],
    [SendHidReports]), the power callback [OnD0Entry] and the PnP callbacks
    [OnPrepareHardware] and [OnReleaseHardware], with the properties of the
    reporting pipeline and of the device lifecycle proved about them.

    The callbacks are written in a small state monad over a [World] that
    holds the device context, the framework request queues, the opaque state
    of the touch engine and the sequence of calls made so far. *)

From Stdlib Require Import ZArith Lia.
From Stdlib.Init Require Import Byte.
From stdpp Require Import base numbers option list gmap vector strings.

Local Open Scope Z_scope.

(** ** Machine integers and NTSTATUS *)

(** A 32-bit pattern read as a signed [LONG]. *)
Definition sint32 (z : Z) : Z := (z + 2 ^ 31) mod 2 ^ 32 - 2 ^ 31.

(** A 32-bit pattern read as an unsigned [ULONG]. *)
Definition uint32 (z : Z) : Z := z mod 2 ^ 32.

(** [NTSTATUS] is a [LONG]. *)
Definition NTSTATUS := Z.

Definition STATUS_SUCCESS : NTSTATUS := 0.
Definition STATUS_NO_MORE_ENTRIES : NTSTATUS := sint32 0x8000001A.
Definition STATUS_UNSUCCESSFUL : NTSTATUS := sint32 0xC0000001.
Definition STATUS_BUFFER_TOO_SMALL : NTSTATUS := sint32 0xC0000023.
Definition STATUS_INSUFFICIENT_RESOURCES : NTSTATUS := sint32 0xC000009A.

(** [#define NT_SUCCESS(Status) (((NTSTATUS)(Status)) >= 0)] *)
Definition NT_SUCCESS (Status : Z) : bool := 0 <=? sint32 Status.

Definition TRACE_LEVEL_ERROR : Z := 2.
Definition TRACE_LEVEL_WARNING : Z := 3.

(** ** Resource descriptors *)

Definition CmResourceTypeConnection : Z := 132.
Definition CM_RESOURCE_CONNECTION_CLASS_GPIO : Z := 1.
Definition CM_RESOURCE_CONNECTION_CLASS_SERIAL : Z := 2.
Definition CM_RESOURCE_CONNECTION_TYPE_GPIO_IO : Z := 2.
Definition CM_RESOURCE_CONNECTION_TYPE_SERIAL_I2C : Z := 1.

(** The fields of [CM_PARTIAL_RESOURCE_DESCRIPTOR] that [OnPrepareHardware]
    reads: the [Type] tag and the [u.Connection] member. *)
Record CM_PARTIAL_RESOURCE_DESCRIPTOR := mkDescriptor {
  ResType : Z;
  ConnectionClass : Z;
  ConnectionType : Z;
  IdLowPart : Z;
  IdHighPart : Z
}.

(** [LARGE_INTEGER]: [LowPart] is a [ULONG], [HighPart] a [LONG]. *)
Record LARGE_INTEGER := mkLargeInteger {
  LowPart : Z;
  HighPart : Z
}.

(** ** Handles and the device context *)

Definition WDFDEVICE := N.
Definition WDFQUEUE := N.
Definition WDFINTERRUPT := N.
Definition WDFIOTARGET := N.
Definition TOUCH_CONTEXT := N.

Record SPB_CONTEXT := mkSpbContext {
  I2cResHubId : LARGE_INTEGER
}.

(** Modelled from the spec: the declaration of [DEVICE_EXTENSION] is in
    [internal.h], which is not among the sources; the record has the fields
    that [device.c] reads and writes, typed as the spec's Device Context
    describes them. *)
Record DEVICE_EXTENSION := mkDeviceExtension {
  FxDevice : WDFDEVICE;
  TouchContext : TOUCH_CONTEXT;
  I2CContext : SPB_CONTEXT;
  InputMode : Z;
  PingPongQueue : WDFQUEUE;
  ServiceInterruptsAfterD0Entry : bool;
  ResetGpioId : LARGE_INTEGER;
  HasResetGpio : bool;
  ResetGpio : WDFIOTARGET
}.

Definition set_ServiceInterruptsAfterD0Entry (b : bool) (c : DEVICE_EXTENSION) :=
  mkDeviceExtension (FxDevice c) (TouchContext c) (I2CContext c) (InputMode c)
    (PingPongQueue c) b (ResetGpioId c) (HasResetGpio c) (ResetGpio c).

Definition set_TouchContext (t : TOUCH_CONTEXT) (c : DEVICE_EXTENSION) :=
  mkDeviceExtension (FxDevice c) t (I2CContext c) (InputMode c)
    (PingPongQueue c) (ServiceInterruptsAfterD0Entry c) (ResetGpioId c)
    (HasResetGpio c) (ResetGpio c).

Definition set_I2cResHubId (id : LARGE_INTEGER) (c : DEVICE_EXTENSION) :=
  mkDeviceExtension (FxDevice c) (TouchContext c) (mkSpbContext id) (InputMode c)
    (PingPongQueue c) (ServiceInterruptsAfterD0Entry c) (ResetGpioId c)
    (HasResetGpio c) (ResetGpio c).

Definition set_ResetGpioId (id : LARGE_INTEGER) (c : DEVICE_EXTENSION) :=
  mkDeviceExtension (FxDevice c) (TouchContext c) (I2CContext c) (InputMode c)
    (PingPongQueue c) (ServiceInterruptsAfterD0Entry c) id
    (HasResetGpio c) (ResetGpio c).

Definition set_HasResetGpio (b : bool) (c : DEVICE_EXTENSION) :=
  mkDeviceExtension (FxDevice c) (TouchContext c) (I2CContext c) (InputMode c)
    (PingPongQueue c) (ServiceInterruptsAfterD0Entry c) (ResetGpioId c)
    b (ResetGpio c).

(** ** Host read requests *)

(** The request object behind a [WDFREQUEST] handle. A request is owned by
    the queue until it is retrieved, by the driver until it is completed and
    by the host afterwards, so the object travels with the handle.
    [OutputBufferStatus] is what the framework answers when the driver asks
    for the output buffer, [OutputBuffer] the bytes of that buffer and
    [Information] the byte count reported at completion. *)
Record WDFREQUEST := mkRequest {
  Handle : N;
  OutputBufferStatus : NTSTATUS;
  OutputBuffer : list byte;
  Information : Z
}.

(** ** What the driver calls *)

(** The touch engine, the bus channel and the idle manager are outside
    [device.c]. [Platform] is their interface: every operation acts on an
    opaque [Engine] state and returns what the C function returns. An
    operation that is handed the device context, or a pointer to one of its
    fields, reads it; [TchAllocateContext], which is handed the address of
    [TouchContext] to fill in, returns the value it stores there, and
    [TchServiceInterrupts] returns the report array and the count it stores
    through its last two arguments. The size of a HID input report is a
    compile-time constant of a header that is not among the sources, and a
    report is a flat block of that many bytes. *)
Class Platform := {
  sizeof_HID_INPUT_REPORT : nat;
  Engine : Type;
  TchServiceInterrupts :
    TOUCH_CONTEXT -> SPB_CONTEXT -> Z -> Engine ->
    (NTSTATUS * (nat -> vec byte sizeof_HID_INPUT_REPORT) * Z) * Engine;
  TchWakeDevice : TOUCH_CONTEXT -> SPB_CONTEXT -> Engine -> NTSTATUS * Engine;
  TchStopDevice : TOUCH_CONTEXT -> SPB_CONTEXT -> Engine -> NTSTATUS * Engine;
  TchStartDevice : TOUCH_CONTEXT -> SPB_CONTEXT -> Engine -> NTSTATUS * Engine;
  TchFreeContext : TOUCH_CONTEXT -> Engine -> NTSTATUS * Engine;
  TchAllocateContext :
    TOUCH_CONTEXT -> WDFDEVICE -> Engine -> (NTSTATUS * TOUCH_CONTEXT) * Engine;
  TchCompleteIdleIrp : DEVICE_EXTENSION -> Engine -> Engine;
  SpbTargetInitialize : WDFDEVICE -> SPB_CONTEXT -> Engine -> NTSTATUS * Engine;
  SpbTargetDeinitialize : WDFDEVICE -> SPB_CONTEXT -> Engine -> Engine
}.

Definition HID_INPUT_REPORT `{Platform} : Type := vec byte sizeof_HID_INPUT_REPORT.

(** One entry per call that leaves [device.c], in program order. *)
Inductive Event :=
| EvTrace (level : Z) (message : string) (args : list Z)
| EvTchServiceInterrupts (t : TOUCH_CONTEXT) (spb : SPB_CONTEXT) (mode : Z)
    (status : NTSTATUS) (count : Z)
| EvRetrieveNextRequest (q : WDFQUEUE) (status : NTSTATUS) (h : option N)
| EvRequestComplete (request : WDFREQUEST) (status : NTSTATUS)
| EvTchWakeDevice (t : TOUCH_CONTEXT) (spb : SPB_CONTEXT) (status : NTSTATUS)
| EvTchCompleteIdleIrp (c : DEVICE_EXTENSION)
| EvTchStopDevice (t : TOUCH_CONTEXT) (spb : SPB_CONTEXT) (status : NTSTATUS)
| EvTchFreeContext (t : TOUCH_CONTEXT) (status : NTSTATUS)
| EvSpbTargetDeinitialize (d : WDFDEVICE) (spb : SPB_CONTEXT)
| EvSpbTargetInitialize (d : WDFDEVICE) (spb : SPB_CONTEXT) (status : NTSTATUS)
| EvTchAllocateContext (d : WDFDEVICE) (status : NTSTATUS) (t : TOUCH_CONTEXT)
| EvTchStartDevice (t : TOUCH_CONTEXT) (spb : SPB_CONTEXT) (status : NTSTATUS).

Section Driver.
Context `{P : Platform}.

(** ** The world and the monad *)

Record World := mkWorld {
  devContext : DEVICE_EXTENSION;
  queues : gmap WDFQUEUE (list WDFREQUEST);
  engine : Engine;
  calls : list Event
}.

Definition M (A : Type) : Type := World -> A * World.

Definition ret {A} (a : A) : M A := fun w => (a, w).

Definition bind {A B} (c : M A) (k : A -> M B) : M B :=
  fun w => let (a, w') := c w in k a w'.

Notation "x <- c ;; k" := (bind c (fun x => k))
  (at level 20, c at level 99, k at level 200, only parsing).
Notation "' p <- c ;; k" := (bind c (fun x => match x with p => k end))
  (at level 20, p pattern, c at level 99, k at level 200, only parsing).
Notation "c ;; k" := (bind c (fun _ => k))
  (at level 100, k at level 200, right associativity, only parsing).

Definition emit (e : Event) : M unit :=
  fun w => (tt, mkWorld (devContext w) (queues w) (engine w) (calls w ++ [e])).

Definition GetDeviceContext : M DEVICE_EXTENSION :=
  fun w => (devContext w, w).

Definition modify_devContext (f : DEVICE_EXTENSION -> DEVICE_EXTENSION) : M unit :=
  fun w => (tt, mkWorld (f (devContext w)) (queues w) (engine w) (calls w)).

(** A call into the platform: run it on the engine state. *)
Definition on_engine {A} (f : Engine -> A * Engine) : M A :=
  fun w => let (a, e) := f (engine w) in
           (a, mkWorld (devContext w) (queues w) e (calls w)).

Definition Trace (level : Z) (message : string) (args : list Z) : M unit :=
  emit (EvTrace level message args).

(** [for (i = first; i < first + n; i++) body(i)] *)
Fixpoint for_loop (n : nat) (i : nat) (body : nat -> M unit) : M unit :=
  match n with
  | O => ret tt
  | S n' => body i ;; for_loop n' (S i) body
  end.

(** ** The framework's request queue *)

(** [WdfIoQueueRetrieveNextRequest]: the queue is a FIFO; its head is handed
    out with [STATUS_SUCCESS], an empty queue answers
    [STATUS_NO_MORE_ENTRIES]. *)
Definition WdfIoQueueRetrieveNextRequest (Queue : WDFQUEUE)
  : M (NTSTATUS * option WDFREQUEST) :=
  fun w =>
    match queues w !! Queue with
    | Some (request :: rest) =>
        ((STATUS_SUCCESS, Some request),
         mkWorld (devContext w) (<[Queue := rest]> (queues w)) (engine w)
           (calls w ++ [EvRetrieveNextRequest Queue STATUS_SUCCESS (Some (Handle request))]))
    | _ =>
        ((STATUS_NO_MORE_ENTRIES, None),
         mkWorld (devContext w) (queues w) (engine w)
           (calls w ++ [EvRetrieveNextRequest Queue STATUS_NO_MORE_ENTRIES None]))
    end.

(** [WdfRequestRetrieveOutputBuffer]: status, buffer and buffer length. The
    answer is a datum of the request; no relation between the status and
    [MinimumRequiredSize] is assumed, so the driver's own length check is
    exercised. *)
Definition WdfRequestRetrieveOutputBuffer (Request : WDFREQUEST)
    (MinimumRequiredSize : nat) : NTSTATUS * list byte * nat :=
  (OutputBufferStatus Request, OutputBuffer Request, length (OutputBuffer Request)).

(** [RtlCopyMemory(Destination, Source, Length)] on the bytes at
    [Destination]. *)
Definition RtlCopyMemory (Destination Source : list byte) (Length : nat) : list byte :=
  take Length Source ++ drop Length Destination.

(** The request after a copy into its output buffer. *)
Definition write_OutputBuffer (Request : WDFREQUEST) (bytes : list byte) : WDFREQUEST :=
  mkRequest (Handle Request) (OutputBufferStatus Request) bytes (Information Request).

Definition WdfRequestSetInformation (Request : WDFREQUEST) (info : Z) : WDFREQUEST :=
  mkRequest (Handle Request) (OutputBufferStatus Request) (OutputBuffer Request) info.

Definition WdfRequestComplete (Request : WDFREQUEST) (Status : NTSTATUS) : M unit :=
  emit (EvRequestComplete Request Status).

(** ** Calls into the platform, recorded *)

Definition call_TchServiceInterrupts (t : TOUCH_CONTEXT) (spb : SPB_CONTEXT) (mode : Z)
  : M (NTSTATUS * (nat -> HID_INPUT_REPORT) * Z) :=
  r <- on_engine (TchServiceInterrupts t spb mode) ;;
  emit (EvTchServiceInterrupts t spb mode (fst (fst r)) (snd r)) ;;
  ret r.

Definition call_TchWakeDevice (t : TOUCH_CONTEXT) (spb : SPB_CONTEXT) : M NTSTATUS :=
  status <- on_engine (TchWakeDevice t spb) ;;
  emit (EvTchWakeDevice t spb status) ;;
  ret status.

Definition call_TchStopDevice (t : TOUCH_CONTEXT) (spb : SPB_CONTEXT) : M NTSTATUS :=
  status <- on_engine (TchStopDevice t spb) ;;
  emit (EvTchStopDevice t spb status) ;;
  ret status.

Definition call_TchStartDevice (t : TOUCH_CONTEXT) (spb : SPB_CONTEXT) : M NTSTATUS :=
  status <- on_engine (TchStartDevice t spb) ;;
  emit (EvTchStartDevice t spb status) ;;
  ret status.

Definition call_TchFreeContext (t : TOUCH_CONTEXT) : M NTSTATUS :=
  status <- on_engine (TchFreeContext t) ;;
  emit (EvTchFreeContext t status) ;;
  ret status.

(** [TchAllocateContext(&devContext->TouchContext, FxDevice)] writes the
    context pointer through its first argument. *)
Definition call_TchAllocateContext (d : WDFDEVICE) : M NTSTATUS :=
  c <- GetDeviceContext ;;
  r <- on_engine (TchAllocateContext (TouchContext c) d) ;;
  modify_devContext (set_TouchContext (snd r)) ;;
  emit (EvTchAllocateContext d (fst r) (snd r)) ;;
  ret (fst r).

Definition call_TchCompleteIdleIrp (c : DEVICE_EXTENSION) : M unit :=
  on_engine (fun e => (tt, TchCompleteIdleIrp c e)) ;;
  emit (EvTchCompleteIdleIrp c).

Definition call_SpbTargetInitialize (d : WDFDEVICE) (spb : SPB_CONTEXT) : M NTSTATUS :=
  status <- on_engine (SpbTargetInitialize d spb) ;;
  emit (EvSpbTargetInitialize d spb status) ;;
  ret status.

Definition call_SpbTargetDeinitialize (d : WDFDEVICE) (spb : SPB_CONTEXT) : M unit :=
  on_engine (fun e => (tt, SpbTargetDeinitialize d spb e)) ;;
  emit (EvSpbTargetDeinitialize d spb).

(** ** [SendHidReports] *)

(** One iteration of the loop, for report [i]. The local [request] is the
    retrieved request object; the copy and [WdfRequestSetInformation] act on
    it before the one [WdfRequestComplete] at the end of the iteration. *)
Definition SendHidReports_body (PingPongQueue : WDFQUEUE)
    (hidReportsFromDriver : nat -> HID_INPUT_REPORT) (i : nat) : M unit :=
  '(status, retrieved) <- WdfIoQueueRetrieveNextRequest PingPongQueue ;;
  match NT_SUCCESS status, retrieved with
  | true, Some request =>
      let '(status, hidReportRequestBuffer, hidReportRequestBufferLength) :=
        WdfRequestRetrieveOutputBuffer request sizeof_HID_INPUT_REPORT in
      '(request, status) <-
        (if negb (NT_SUCCESS status) then
           Trace TRACE_LEVEL_WARNING
             "Error retrieving HID read request output buffer - STATUS:%X"
             [status] ;;
           ret (request, status)
         else if (hidReportRequestBufferLength <? sizeof_HID_INPUT_REPORT)%nat then
           let status := STATUS_BUFFER_TOO_SMALL in
           Trace TRACE_LEVEL_WARNING
             "Error HID read request buffer is too small (%lu bytes) - STATUS:%X"
             [Z.of_nat hidReportRequestBufferLength; status] ;;
           ret (request, status)
         else
           let request :=
             write_OutputBuffer request
               (RtlCopyMemory hidReportRequestBuffer
                  (vec_to_list (hidReportsFromDriver i))
                  sizeof_HID_INPUT_REPORT) in
           let request :=
             WdfRequestSetInformation request
               (Z.of_nat sizeof_HID_INPUT_REPORT) in
           ret (request, status)) ;;
      WdfRequestComplete request status
  | _, _ =>
      (* continue *)
      Trace TRACE_LEVEL_ERROR
        "No request pending from HIDClass, ignoring report - STATUS:%X" [status]
  end.

(** [for (int i = 0; i < hidReportsCount; i++)]: a count that is not
    positive runs no iteration. *)
Definition SendHidReports (PingPongQueue : WDFQUEUE)
    (hidReportsFromDriver : nat -> HID_INPUT_REPORT) (hidReportsCount : Z) : M unit :=
  for_loop (Z.to_nat hidReportsCount) 0
    (SendHidReports_body PingPongQueue hidReportsFromDriver).

(** ** [OnInterruptIsr] *)

Definition OnInterruptIsr (Interrupt : WDFINTERRUPT) (MessageID : Z) : M bool :=
  devContext <- GetDeviceContext ;;
  '(status, hidReportsFromDriver, hidReportsCount) <-
    call_TchServiceInterrupts (TouchContext devContext) (I2CContext devContext)
      (InputMode devContext) ;;
  if negb (NT_SUCCESS status) then
    (* goto exit *)
    ret true
  else
    SendHidReports (PingPongQueue devContext) hidReportsFromDriver hidReportsCount ;;
    ret true.

(** ** [OnD0Entry] *)

Definition OnD0Entry (Device : WDFDEVICE) (PreviousState : Z) : M NTSTATUS :=
  devContext <- GetDeviceContext ;;
  status <- call_TchWakeDevice (TouchContext devContext) (I2CContext devContext) ;;
  (if negb (NT_SUCCESS status) then
     Trace TRACE_LEVEL_ERROR "Error setting device to D0 - STATUS:%X" [status]
   else ret tt) ;;
  modify_devContext (set_ServiceInterruptsAfterD0Entry true) ;;
  devContext <- GetDeviceContext ;;
  call_TchCompleteIdleIrp devContext ;;
  ret status.

(** ** [OnReleaseHardware] *)

Definition OnReleaseHardware (FxDevice : WDFDEVICE)
    (FxResourcesTranslated : list CM_PARTIAL_RESOURCE_DESCRIPTOR) : M NTSTATUS :=
  devContext <- GetDeviceContext ;;
  status <- call_TchStopDevice (TouchContext devContext) (I2CContext devContext) ;;
  (if negb (NT_SUCCESS status) then
     Trace TRACE_LEVEL_ERROR "Error stopping device - STATUS:%X" [status]
   else ret tt) ;;
  status <- call_TchFreeContext (TouchContext devContext) ;;
  (if negb (NT_SUCCESS status) then
     Trace TRACE_LEVEL_ERROR "Error freeing touch context - STATUS:%X" [status]
   else ret tt) ;;
  call_SpbTargetDeinitialize FxDevice (I2CContext devContext) ;;
  ret status.

(** ** [OnPrepareHardware] *)

Definition is_I2C (res : CM_PARTIAL_RESOURCE_DESCRIPTOR) : bool :=
  (ResType res =? CmResourceTypeConnection) &&
  (ConnectionClass res =? CM_RESOURCE_CONNECTION_CLASS_SERIAL) &&
  (ConnectionType res =? CM_RESOURCE_CONNECTION_TYPE_SERIAL_I2C).

Definition is_GPIO (res : CM_PARTIAL_RESOURCE_DESCRIPTOR) : bool :=
  (ResType res =? CmResourceTypeConnection) &&
  (ConnectionClass res =? CM_RESOURCE_CONNECTION_CLASS_GPIO) &&
  (ConnectionType res =? CM_RESOURCE_CONNECTION_TYPE_GPIO_IO).

(** The connection ID of a descriptor as the assignments to [LowPart]
    ([ULONG] to [ULONG]) and [HighPart] ([ULONG] to [LONG]) store it. *)
Definition ConnectionId (res : CM_PARTIAL_RESOURCE_DESCRIPTOR) : LARGE_INTEGER :=
  mkLargeInteger (uint32 (IdLowPart res)) (sint32 (IdHighPart res)).

(** The two [if] statements of the loop body, on the device context and the
    local [status]. *)
Definition resolve_step (res : CM_PARTIAL_RESOURCE_DESCRIPTOR)
    (s : DEVICE_EXTENSION * NTSTATUS) : DEVICE_EXTENSION * NTSTATUS :=
  let s :=
    if is_I2C res
    then (set_I2cResHubId (ConnectionId res) (fst s), STATUS_SUCCESS)
    else s in
  if is_GPIO res
  then (set_HasResetGpio true (set_ResetGpioId (ConnectionId res) (fst s)), snd s)
  else s.

(** [for (i = 0; i < resourceCount; i++)] with
    [res = WdfCmResourceListGetDescriptor(FxResourcesTranslated, i)]. *)
Fixpoint resolve_loop (n : nat) (i : nat)
    (FxResourcesTranslated : list CM_PARTIAL_RESOURCE_DESCRIPTOR)
    (s : DEVICE_EXTENSION * NTSTATUS) : DEVICE_EXTENSION * NTSTATUS :=
  match n with
  | O => s
  | S n' =>
      match FxResourcesTranslated !! i with
      | Some res => resolve_loop n' (S i) FxResourcesTranslated (resolve_step res s)
      | None => resolve_loop n' (S i) FxResourcesTranslated s
      end
  end.

Definition OnPrepareHardware (FxDevice : WDFDEVICE)
    (FxResourcesRaw FxResourcesTranslated : list CM_PARTIAL_RESOURCE_DESCRIPTOR)
  : M NTSTATUS :=
  let status := STATUS_INSUFFICIENT_RESOURCES in
  devContext <- GetDeviceContext ;;
  let resourceCount := length FxResourcesTranslated in
  let '(devContext, status) :=
    resolve_loop resourceCount 0 FxResourcesTranslated (devContext, status) in
  modify_devContext (fun _ => devContext) ;;
  if negb (NT_SUCCESS status) then
    Trace TRACE_LEVEL_ERROR
      "Error finding CmResourceTypeConnection resource - STATUS:%X" [status] ;;
    ret status
  else
    status <- call_SpbTargetInitialize FxDevice (I2CContext devContext) ;;
    if negb (NT_SUCCESS status) then
      Trace TRACE_LEVEL_ERROR "Error in Spb initialization - STATUS:%X" [status] ;;
      ret status
    else
      status <- call_TchAllocateContext FxDevice ;;
      if negb (NT_SUCCESS status) then
        Trace TRACE_LEVEL_ERROR "Error allocating touch context - STATUS:%X" [status] ;;
        ret status
      else
        devContext <- GetDeviceContext ;;
        status <- call_TchStartDevice (TouchContext devContext) (I2CContext devContext) ;;
        if negb (NT_SUCCESS status) then
          Trace TRACE_LEVEL_ERROR "Error starting touch device - STATUS:%X" [status] ;;
          ret status
        else
          ret status.

(** ** Reading the record of calls *)

(** The completions handed back to the host: request object and status. *)
Definition completed (t : list Event) : list (WDFREQUEST * NTSTATUS) :=
  omap (fun e => match e with
                 | EvRequestComplete request status => Some (request, status)
                 | _ => None
                 end) t.

(** The handles of the requests taken out of a queue. *)
Definition retrieved (t : list Event) : list N :=
  omap (fun e => match e with
                 | EvRetrieveNextRequest _ _ (Some h) => Some h
                 | _ => None
                 end) t.

(** A report is dropped where the loop takes its [continue]: a failed
    retrieval from the queue. *)
Definition is_drop (e : Event) : bool :=
  match e with
  | EvRetrieveNextRequest _ _ None => true
  | _ => false
  end.

Definition dropped (t : list Event) : nat := length (filter is_drop t).

(** The requests waiting in a queue, oldest first. *)
Definition pending (Queue : WDFQUEUE) (w : World) : list WDFREQUEST :=
  default [] (queues w !! Queue).

End Driver.

(** * The vocabulary of the properties *)

Section Vocabulary.
Context `{P : Platform}.

(** The world after the calls [t] were recorded. *)
Definition logged (w : World) (t : list Event) : World :=
  mkWorld (devContext w) (queues w) (engine w) (calls w ++ t).

(** The world with the engine in state [e]. *)
Definition on (e : Engine) (w : World) : World :=
  mkWorld (devContext w) (queues w) e (calls w).

(** What one iteration does with the request it retrieved: the request as
    completed and the completion status. *)
Definition outcome (report : HID_INPUT_REPORT) (request : WDFREQUEST)
  : WDFREQUEST * NTSTATUS :=
  if negb (NT_SUCCESS (OutputBufferStatus request)) then
    (request, OutputBufferStatus request)
  else if (length (OutputBuffer request) <? sizeof_HID_INPUT_REPORT)%nat then
    (request, STATUS_BUFFER_TOO_SMALL)
  else
    (mkRequest (Handle request) (OutputBufferStatus request)
       (RtlCopyMemory (OutputBuffer request) (vec_to_list report)
          sizeof_HID_INPUT_REPORT)
       (Z.of_nat sizeof_HID_INPUT_REPORT),
     OutputBufferStatus request).

(** The calls of one iteration that found [request] at the head of the
    queue, after the retrieval itself. *)
Definition serve_events (report : HID_INPUT_REPORT) (request : WDFREQUEST)
  : list Event :=
  if negb (NT_SUCCESS (OutputBufferStatus request)) then
    [EvTrace TRACE_LEVEL_WARNING
       "Error retrieving HID read request output buffer - STATUS:%X"
       [OutputBufferStatus request];
     EvRequestComplete request (OutputBufferStatus request)]
  else if (length (OutputBuffer request) <? sizeof_HID_INPUT_REPORT)%nat then
    [EvTrace TRACE_LEVEL_WARNING
       "Error HID read request buffer is too small (%lu bytes) - STATUS:%X"
       [Z.of_nat (length (OutputBuffer request)); STATUS_BUFFER_TOO_SMALL];
     EvRequestComplete request STATUS_BUFFER_TOO_SMALL]
  else
    [EvRequestComplete (fst (outcome report request)) (snd (outcome report request))].

(** The calls of one iteration that found the queue empty. *)
Definition skip_events (Queue : WDFQUEUE) : list Event :=
  [EvRetrieveNextRequest Queue STATUS_NO_MORE_ENTRIES None;
   EvTrace TRACE_LEVEL_ERROR
     "No request pending from HIDClass, ignoring report - STATUS:%X"
     [STATUS_NO_MORE_ENTRIES]].

(** The calls of [n] iterations starting at report [i], over the requests
    that are waiting. *)
Fixpoint loop_events (Queue : WDFQUEUE) (reports : nat -> HID_INPUT_REPORT)
    (n i : nat) (waiting : list WDFREQUEST) : list Event :=
  match n with
  | O => []
  | S n' =>
      match waiting with
      | request :: rest =>
          EvRetrieveNextRequest Queue STATUS_SUCCESS (Some (Handle request))
            :: serve_events (reports i) request
            ++ loop_events Queue reports n' (S i) rest
      | [] => skip_events Queue ++ loop_events Queue reports n' (S i) []
      end
  end.

(** A request whose output buffer the framework hands out and that is large
    enough for a report. *)
Definition adequate (request : WDFREQUEST) : Prop :=
  NT_SUCCESS (OutputBufferStatus request) = true /\
  (sizeof_HID_INPUT_REPORT <= length (OutputBuffer request))%nat.

(** How a completion can look: a failure status, or success with the bytes
    of one of the reports at the front of the output buffer and the
    information field set. *)
Definition well_completed (reports : nat -> HID_INPUT_REPORT)
    (c : WDFREQUEST * NTSTATUS) : Prop :=
  NT_SUCCESS (snd c) = false \/
  (NT_SUCCESS (snd c) = true /\
   exists i, take sizeof_HID_INPUT_REPORT (OutputBuffer (fst c)) =
               vec_to_list (reports i) /\
             Information (fst c) = Z.of_nat sizeof_HID_INPUT_REPORT).

(** The world in which [devContext] has the given value of
    [ServiceInterruptsAfterD0Entry] and everything else is as in [w]. *)
Definition with_flag (b : bool) (w : World) : World :=
  mkWorld (set_ServiceInterruptsAfterD0Entry b (devContext w))
    (queues w) (engine w) (calls w).

(** What [TchServiceInterrupts] answers when the ISR runs in [w]. *)
Definition serviced (w : World)
  : (NTSTATUS * (nat -> HID_INPUT_REPORT) * Z) * Engine :=
  TchServiceInterrupts (TouchContext (devContext w)) (I2CContext (devContext w))
    (InputMode (devContext w)) (engine w).

(** The world after the call to [TchServiceInterrupts]. *)
Definition after_service (w : World) : World :=
  mkWorld (devContext w) (queues w) (snd (serviced w))
    (calls w ++
       [EvTchServiceInterrupts (TouchContext (devContext w))
          (I2CContext (devContext w)) (InputMode (devContext w))
          (fst (fst (fst (serviced w)))) (snd (fst (serviced w)))]).

(** The statuses of the teardown steps that return one, in the order of the
    calls. *)
Definition step_statuses (t : list Event) : list NTSTATUS :=
  omap (fun e => match e with
                 | EvTchStopDevice _ _ status => Some status
                 | EvTchFreeContext _ status => Some status
                 | _ => None
                 end) t.

(** The first non-success status of a sequence of statuses, if there is
    one. *)
Definition first_failure (statuses : list NTSTATUS) : option NTSTATUS :=
  head (filter (fun status => NT_SUCCESS status = false) statuses).

(** The teardown steps among the calls. *)
Definition is_teardown_step (e : Event) : bool :=
  match e with
  | EvTchStopDevice _ _ _ | EvTchFreeContext _ _ | EvSpbTargetDeinitialize _ _ => true
  | _ => false
  end.

(** The device context after the pass: the bus ID is that of the last
    Serial/I2C descriptor, the reset GPIO ID that of the last GPIO I/O
    descriptor, [HasResetGpio] is set if there is one; what the list does not
    name stays. *)
Definition resolved (l : list CM_PARTIAL_RESOURCE_DESCRIPTOR)
    (c : DEVICE_EXTENSION) : DEVICE_EXTENSION :=
  mkDeviceExtension (FxDevice c) (TouchContext c)
    (from_option (fun res => mkSpbContext (ConnectionId res)) (I2CContext c)
       (last (filter is_I2C l)))
    (InputMode c) (PingPongQueue c) (ServiceInterruptsAfterD0Entry c)
    (from_option ConnectionId (ResetGpioId c) (last (filter is_GPIO l)))
    (existsb is_GPIO l || HasResetGpio c) (ResetGpio c).

(** Descriptors of neither class leave the pass where it is. *)
Definition recognized (res : CM_PARTIAL_RESOURCE_DESCRIPTOR) : bool :=
  is_I2C res || is_GPIO res.

Definition not_GPIO (res : CM_PARTIAL_RESOURCE_DESCRIPTOR) : bool :=
  negb (is_GPIO res).

(** The part of [OnPrepareHardware] behind the resource check, for the
    device context [c] that the pass left. *)
Definition bring_up (FxDevice : WDFDEVICE) (c : DEVICE_EXTENSION) : M NTSTATUS :=
  bind (call_SpbTargetInitialize FxDevice (I2CContext c)) (fun status =>
  if negb (NT_SUCCESS status) then
    bind (Trace TRACE_LEVEL_ERROR "Error in Spb initialization - STATUS:%X" [status])
      (fun _ => ret status)
  else
    bind (call_TchAllocateContext FxDevice) (fun status =>
    if negb (NT_SUCCESS status) then
      bind (Trace TRACE_LEVEL_ERROR "Error allocating touch context - STATUS:%X"
              [status])
        (fun _ => ret status)
    else
      bind GetDeviceContext (fun devContext =>
      bind (call_TchStartDevice (TouchContext devContext) (I2CContext devContext))
        (fun status =>
      if negb (NT_SUCCESS status) then
        bind (Trace TRACE_LEVEL_ERROR "Error starting touch device - STATUS:%X"
                [status])
          (fun _ => ret status)
      else ret status)))).

Definition missing_resource_trace : Event :=
  EvTrace TRACE_LEVEL_ERROR
    "Error finding CmResourceTypeConnection resource - STATUS:%X"
    [STATUS_INSUFFICIENT_RESOURCES].

(** The calls that bring the device up. *)
Definition is_bring_up_call (e : Event) : bool :=
  match e with
  | EvSpbTargetInitialize _ _ _ | EvTchAllocateContext _ _ _
  | EvTchStartDevice _ _ _ => true
  | _ => false
  end.

(** The world in which the reset GPIO fields of [devContext] have the given
    values and everything else is as in [w]. *)
Definition with_gpio (id : LARGE_INTEGER) (b : bool) (w : World) : World :=
  mkWorld (set_HasResetGpio b (set_ResetGpioId id (devContext w)))
    (queues w) (engine w) (calls w).

End Vocabulary.

(** * A scripted platform and the inputs of the scenarios *)

Module Scenario.

Definition A : vec byte 4 := [# x41; x41; x41; x41].
Definition B : vec byte 4 := [# x42; x42; x42; x42].
Definition C : vec byte 4 := [# x43; x43; x43; x43].

Definition reports (i : nat) : vec byte 4 :=
  match i with
  | O => A
  | S O => B
  | _ => C
  end.

(** A platform with 4-byte reports whose engine state counts the calls made
    into it and whose operations answer the scripted statuses;
    [TchServiceInterrupts] hands out [count] reports [A, B, C, C, ...]. *)
Definition scripted (service wake stop free init alloc start : NTSTATUS)
    (count : Z) : Platform :=
  {| sizeof_HID_INPUT_REPORT := 4;
     Engine := nat;
     TchServiceInterrupts := fun _ _ _ e => ((service, reports, count), S e);
     TchWakeDevice := fun _ _ e => (wake, S e);
     TchStopDevice := fun _ _ e => (stop, S e);
     TchStartDevice := fun _ _ e => (start, S e);
     TchFreeContext := fun _ e => (free, S e);
     TchAllocateContext := fun _ _ e => ((alloc, 7%N), S e);
     TchCompleteIdleIrp := fun _ e => S e;
     SpbTargetInitialize := fun _ _ e => (init, S e);
     SpbTargetDeinitialize := fun _ _ e => S e |}.

(** Every operation succeeds; the service call hands out [count] reports. *)
Definition healthy (count : Z) : Platform :=
  scripted STATUS_SUCCESS STATUS_SUCCESS STATUS_SUCCESS STATUS_SUCCESS
    STATUS_SUCCESS STATUS_SUCCESS STATUS_SUCCESS count.

Definition zero : LARGE_INTEGER := mkLargeInteger 0 0.

Definition context : DEVICE_EXTENSION :=
  mkDeviceExtension 1%N 2%N (mkSpbContext zero) 0 5%N false zero false 0%N.

(** A request with an output buffer of [n] zero bytes. *)
Definition request (h : N) (n : nat) : WDFREQUEST :=
  mkRequest h STATUS_SUCCESS (replicate n x00) 0.

(** A request whose output buffer cannot be retrieved. *)
Definition request_without_buffer (h : N) : WDFREQUEST :=
  mkRequest h STATUS_UNSUCCESSFUL [] 0.

Definition world (P : Platform) (e : @Engine P) (waiting : list WDFREQUEST)
  : @World P :=
  mkWorld context {[ 5%N := waiting ]} e [].

(** The completions of a run of the ISR: handle, status, output buffer and
    information of each. *)
Definition isr_completions (P : Platform) (w : @World P)
  : list (N * NTSTATUS * list byte * Z) :=
  (fun c => (Handle (fst c), snd c, OutputBuffer (fst c), Information (fst c)))
    <$> completed (calls (snd (OnInterruptIsr 0%N 0 w))).

Definition I2C (low high : Z) : CM_PARTIAL_RESOURCE_DESCRIPTOR :=
  mkDescriptor CmResourceTypeConnection CM_RESOURCE_CONNECTION_CLASS_SERIAL
    CM_RESOURCE_CONNECTION_TYPE_SERIAL_I2C low high.

Definition GPIO (low high : Z) : CM_PARTIAL_RESOURCE_DESCRIPTOR :=
  mkDescriptor CmResourceTypeConnection CM_RESOURCE_CONNECTION_CLASS_GPIO
    CM_RESOURCE_CONNECTION_TYPE_GPIO_IO low high.

(** An interrupt descriptor ([CmResourceTypeInterrupt] is 2). *)
Definition IRQ : CM_PARTIAL_RESOURCE_DESCRIPTOR := mkDescriptor 2 0 0 0 0.

(** What [OnPrepareHardware] returns and leaves for a list: status, bus ID,
    [HasResetGpio], reset GPIO ID and the number of calls into the engine. *)
Definition prepared (l : list CM_PARTIAL_RESOURCE_DESCRIPTOR)
  : NTSTATUS * LARGE_INTEGER * bool * LARGE_INTEGER * nat :=
  let r := OnPrepareHardware (P := healthy 0) 1%N [] l (world (healthy 0) 0%nat []) in
  (fst r, I2cResHubId (I2CContext (devContext (snd r))),
   HasResetGpio (devContext (snd r)), ResetGpioId (devContext (snd r)),
   engine (snd r)).

End Scenario.

Module Concrete.
Import Scenario.

(** One adequate request waiting, two reports. *)
Definition overflow_world : @World (healthy 2) :=
  world (healthy 2) 0%nat [request 10 4].

(** Two adequate requests waiting. *)
Definition two_waiting : @World (healthy 2) :=
  world (healthy 2) 0%nat [request 10 4; request 11 6].

(** A short buffer, a request without a buffer, an adequate request. *)
Definition mixed_world : @World (healthy 3) :=
  world (healthy 3) 0%nat [request 10 3; request_without_buffer 11; request 12 4].

(** The service call fails. *)
Definition failing_service : Platform :=
  scripted STATUS_UNSUCCESSFUL STATUS_SUCCESS STATUS_SUCCESS STATUS_SUCCESS
    STATUS_SUCCESS STATUS_SUCCESS STATUS_SUCCESS 3.

(** Stopping the device fails, freeing the touch context succeeds. *)
Definition failing_stop : Platform :=
  scripted STATUS_SUCCESS STATUS_SUCCESS STATUS_UNSUCCESSFUL STATUS_SUCCESS
    STATUS_SUCCESS STATUS_SUCCESS STATUS_SUCCESS 0.

(** Stopping the device succeeds, freeing the touch context fails. *)
Definition failing_free : Platform :=
  scripted STATUS_SUCCESS STATUS_SUCCESS STATUS_SUCCESS STATUS_UNSUCCESSFUL
    STATUS_SUCCESS STATUS_SUCCESS STATUS_SUCCESS 0.

(** One request waiting when the service call fails. *)
Definition unserviced_world : @World failing_service :=
  world failing_service 0%nat [request 10 4].

(** Nothing waiting, every operation succeeds. *)
Definition idle_world : @World (healthy 0) := world (healthy 0) 0%nat [].

(** Nothing waiting, freeing the touch context fails. *)
Definition failing_free_world : @World failing_free :=
  world failing_free 0%nat [].

(** Nothing waiting, stopping the device fails. *)
Definition failing_stop_world : @World failing_stop :=
  world failing_stop 0%nat [].

(** Two Serial/I2C descriptors, two GPIO I/O descriptors and an interrupt. *)
Definition duplicated : list CM_PARTIAL_RESOURCE_DESCRIPTOR :=
  [I2C 9 0; IRQ; GPIO 8 0; I2C 3 0; GPIO 4 1].

End Concrete.

(** * The other functions of [device.c] *)

Definition TRACE_LEVEL_INFORMATION : Z := 4.

(** What [OnD0Exit] and [OpenIOTarget] call beyond [Platform]. The
    operations with an [Engine] argument act on the engine state like those
    of [Platform]; they are not entered in [calls], and what they did shows
    in the engine state they leave. [RESOURCE_HUB_CREATE_PATH_FROM_ID] writes
    a path into a local buffer and touches nothing else; [WdfIoTargetCreate]
    returns the handle it stores through its last argument. *)
Class IoPlatform `{P : Platform} := {
  TchStandbyDevice : TOUCH_CONTEXT -> SPB_CONTEXT -> Engine -> NTSTATUS * Engine;
  RESOURCE_HUB_CREATE_PATH_FROM_ID : Z -> Z -> NTSTATUS * string;
  WdfIoTargetCreate :
    WDFDEVICE -> WDFIOTARGET -> Engine -> (NTSTATUS * WDFIOTARGET) * Engine;
  WdfIoTargetOpen : WDFIOTARGET -> string -> Z -> Engine -> NTSTATUS * Engine
}.

Section Io.
Context `{IO : IoPlatform}.

Local Notation "x <- c ;; k" := (bind c (fun x => k))
  (at level 20, c at level 99, k at level 200, only parsing).
Local Notation "' p <- c ;; k" := (bind c (fun x => match x with p => k end))
  (at level 20, p pattern, c at level 99, k at level 200, only parsing).
Local Notation "c ;; k" := (bind c (fun _ => k))
  (at level 100, k at level 200, right associativity, only parsing).

(** ** [OnD0Exit] *)

Definition OnD0Exit (Device : WDFDEVICE) (TargetState : Z) : M NTSTATUS :=
  devContext <- GetDeviceContext ;;
  status <-
    on_engine (TchStandbyDevice (TouchContext devContext) (I2CContext devContext)) ;;
  (if negb (NT_SUCCESS status) then
     Trace TRACE_LEVEL_ERROR "Error exiting D0 - STATUS:%X" [status]
   else ret tt) ;;
  ret status.

(** ** [OpenIOTarget] *)

(** [target] is the handle behind the [WDFIOTARGET*] argument at entry; the
    handle behind it at return comes back with the status. Each [goto Exit]
    is the end of a branch in front of the exit trace. *)
Definition OpenIOTarget (ctx : DEVICE_EXTENSION) (res : LARGE_INTEGER) (use : Z)
    (target : WDFIOTARGET) : M (NTSTATUS * WDFIOTARGET) :=
  Trace TRACE_LEVEL_INFORMATION "OpenIOTarget Entry" [] ;;
  let '(status, ReadString) :=
    RESOURCE_HUB_CREATE_PATH_FROM_ID (LowPart res) (HighPart res) in
  r <-
    (if negb (NT_SUCCESS status) then
       Trace TRACE_LEVEL_INFORMATION
         "RESOURCE_HUB_CREATE_PATH_FROM_ID failed 0x%x" [status] ;;
       ret (status, target)
     else
       '(status, target) <- on_engine (WdfIoTargetCreate (FxDevice ctx) target) ;;
       if negb (NT_SUCCESS status) then
         Trace TRACE_LEVEL_INFORMATION "WdfIoTargetCreate failed 0x%x" [status] ;;
         ret (status, target)
       else
         status <- on_engine (WdfIoTargetOpen target ReadString use) ;;
         if negb (NT_SUCCESS status) then
           Trace TRACE_LEVEL_INFORMATION "WdfIoTargetOpen failed 0x%x" [status] ;;
           ret (status, target)
         else ret (status, target)) ;;
  Trace TRACE_LEVEL_INFORMATION "OpenIOTarget Exit" [] ;;
  ret r.

End Io.

Section MoreVocabulary.
Context `{P : Platform}.

(** The statuses of the bring-up calls among the calls, in order. *)
Definition bring_up_statuses (t : list Event) : list NTSTATUS :=
  omap (fun e => match e with
                 | EvSpbTargetInitialize _ _ status => Some status
                 | EvTchAllocateContext _ status _ => Some status
                 | EvTchStartDevice _ _ status => Some status
                 | _ => None
                 end) t.

(** The error traces among the calls. *)
Definition is_error_trace (e : Event) : bool :=
  match e with
  | EvTrace level _ _ => level =? TRACE_LEVEL_ERROR
  | _ => false
  end.

(** The first and the last call record of [OpenIOTarget]. *)
Definition entry_trace : Event :=
  EvTrace TRACE_LEVEL_INFORMATION "OpenIOTarget Entry" [].

Definition exit_trace : Event :=
  EvTrace TRACE_LEVEL_INFORMATION "OpenIOTarget Exit" [].

(** What [TchStopDevice] answers when [OnReleaseHardware] runs in [w], and
    what [TchFreeContext] answers behind it. *)
Definition stop_result (w : World) : NTSTATUS * Engine :=
  TchStopDevice (TouchContext (devContext w)) (I2CContext (devContext w))
    (engine w).

Definition free_result (w : World) : NTSTATUS * Engine :=
  TchFreeContext (TouchContext (devContext w)) (snd (stop_result w)).

(** The calls made between two worlds of one run. *)
Definition since (w w' : World) : list Event :=
  drop (length (calls w)) (calls w').

End MoreVocabulary.

Section Callbacks.
Context `{IO : IoPlatform}.

(** The callbacks of [device.c] that the framework invokes, with their
    arguments. *)
Inductive Callback :=
| CbInterruptIsr (Interrupt : WDFINTERRUPT) (MessageID : Z)
| CbD0Entry (Device : WDFDEVICE) (PreviousState : Z)
| CbD0Exit (Device : WDFDEVICE) (TargetState : Z)
| CbPrepareHardware (FxDevice : WDFDEVICE)
    (FxResourcesRaw FxResourcesTranslated : list CM_PARTIAL_RESOURCE_DESCRIPTOR)
| CbReleaseHardware (FxDevice : WDFDEVICE)
    (FxResourcesTranslated : list CM_PARTIAL_RESOURCE_DESCRIPTOR).

(** The world after one callback. *)
Definition invoke (cb : Callback) (w : World) : World :=
  match cb with
  | CbInterruptIsr Interrupt MessageID => snd (OnInterruptIsr Interrupt MessageID w)
  | CbD0Entry Device PreviousState => snd (OnD0Entry Device PreviousState w)
  | CbD0Exit Device TargetState => snd (OnD0Exit Device TargetState w)
  | CbPrepareHardware FxDevice raw translated =>
      snd (OnPrepareHardware FxDevice raw translated w)
  | CbReleaseHardware FxDevice translated =>
      snd (OnReleaseHardware FxDevice translated w)
  end.

(** The world after a sequence of callbacks, first to last. *)
Definition invoke_all (cbs : list Callback) (w : World) : World :=
  foldl (fun w cb => invoke cb w) w cbs.

(** What every callback keeps between the world it starts in and the world
    it ends in: the fields of the device context that wire the driver to the
    framework, the two flags once they are set, every queue but the
    ping-pong queue, and in the ping-pong queue the requests behind those it
    took. *)
Definition kept (w w' : World) : Prop :=
  FxDevice (devContext w') = FxDevice (devContext w) /\
  InputMode (devContext w') = InputMode (devContext w) /\
  PingPongQueue (devContext w') = PingPongQueue (devContext w) /\
  ResetGpio (devContext w') = ResetGpio (devContext w) /\
  (ServiceInterruptsAfterD0Entry (devContext w) = true ->
   ServiceInterruptsAfterD0Entry (devContext w') = true) /\
  (HasResetGpio (devContext w) = true -> HasResetGpio (devContext w') = true) /\
  delete (PingPongQueue (devContext w)) (queues w') =
    delete (PingPongQueue (devContext w)) (queues w) /\
  exists k,
    pending (PingPongQueue (devContext w)) w' =
      drop k (pending (PingPongQueue (devContext w)) w).

End Callbacks.

Module ScenarioIo.
Import Scenario.

(** The remaining operations over a scripted platform: each answers its
    scripted status and counts as one more call into the engine; the path of
    an ID is a fixed name and a created target has handle 9. *)
Definition scripted_io (P : Platform) (step : @Engine P -> @Engine P)
    (standby path create open : NTSTATUS) : @IoPlatform P :=
  {| TchStandbyDevice := fun _ _ e => (standby, step e);
     RESOURCE_HUB_CREATE_PATH_FROM_ID := fun _ _ => (path, "hub"%string);
     WdfIoTargetCreate := fun _ _ e => ((create, 9%N), step e);
     WdfIoTargetOpen := fun _ _ _ e => (open, step e) |}.

(** Creating the target fails. *)
Definition failing_create : @IoPlatform (healthy 0) :=
  scripted_io (healthy 0) S STATUS_SUCCESS STATUS_SUCCESS STATUS_UNSUCCESSFUL
    STATUS_SUCCESS.

(** The service call succeeds with a count of -1. *)
Definition negative_count : Platform := healthy (-1).

Definition negative_world : @World negative_count :=
  world negative_count 0%nat [request 10 4].

(** Nothing is waiting, three reports come. *)
Definition starved_world : @World (healthy 3) := world (healthy 3) 0%nat [].

(** Allocating the touch context fails. *)
Definition failing_alloc : Platform :=
  scripted STATUS_SUCCESS STATUS_SUCCESS STATUS_SUCCESS STATUS_SUCCESS
    STATUS_SUCCESS STATUS_INSUFFICIENT_RESOURCES STATUS_SUCCESS 0.

Definition failing_alloc_world : @World failing_alloc :=
  world failing_alloc 0%nat [].

(** Every remaining operation succeeds. *)
Definition healthy_io : @IoPlatform (healthy 0) :=
  scripted_io (healthy 0) S STATUS_SUCCESS STATUS_SUCCESS STATUS_SUCCESS
    STATUS_SUCCESS.

(** The flag and [HasResetGpio] are set, one request waits. *)
Definition armed_world : @World (healthy 0) :=
  @mkWorld (healthy 0)
    (mkDeviceExtension 1%N 2%N (mkSpbContext zero) 0 5%N true zero true 0%N)
    {[ 5%N := [request 10 4] ]} 0%nat [].

(** A power cycle, an interrupt and a release and prepare without any
    descriptor. *)
Definition busy_day : list Callback :=
  [CbD0Exit 1%N 4; CbD0Entry 1%N 4; CbInterruptIsr 0%N 0;
   CbReleaseHardware 1%N []; CbPrepareHardware 1%N [] []].

End ScenarioIo.

(** * Properties *)

Arguments NT_SUCCESS : simpl never.
Arguments sint32 : simpl never.

Lemma NT_SUCCESS_STATUS_SUCCESS : NT_SUCCESS STATUS_SUCCESS = true.
Proof. reflexivity. Qed.

Lemma NT_SUCCESS_STATUS_NO_MORE_ENTRIES : NT_SUCCESS STATUS_NO_MORE_ENTRIES = false.
Proof. reflexivity. Qed.

Lemma NT_SUCCESS_STATUS_BUFFER_TOO_SMALL : NT_SUCCESS STATUS_BUFFER_TOO_SMALL = false.
Proof. reflexivity. Qed.

Lemma NT_SUCCESS_STATUS_INSUFFICIENT_RESOURCES :
  NT_SUCCESS STATUS_INSUFFICIENT_RESOURCES = false.
Proof. reflexivity. Qed.

Section Calls.
Context `{P : Platform}.

(** Equations for running the monad, one per kind of step. *)

Lemma bind_eq {A B} (c : M A) (k : A -> M B) (w : World) :
  bind c k w = k (fst (c w)) (snd (c w)).
Proof. unfold bind. by destruct (c w). Qed.

Lemma Trace_unless_eq status level message args w :
  (if negb (NT_SUCCESS status) then Trace level message args else ret tt) w =
    (tt, logged w (if NT_SUCCESS status then []
                   else [EvTrace level message args])).
Proof.
  destruct w. destruct (NT_SUCCESS status); unfold logged; simpl;
    by rewrite ?app_nil_r.
Qed.

Lemma call_TchStopDevice_eq t spb w :
  call_TchStopDevice t spb w =
    (fst (TchStopDevice t spb (engine w)),
     logged (on (snd (TchStopDevice t spb (engine w))) w)
       [EvTchStopDevice t spb (fst (TchStopDevice t spb (engine w)))]).
Proof.
  unfold call_TchStopDevice, on_engine, emit, bind, ret.
  by destruct (TchStopDevice _ _ _).
Qed.

Lemma call_TchFreeContext_eq t w :
  call_TchFreeContext t w =
    (fst (TchFreeContext t (engine w)),
     logged (on (snd (TchFreeContext t (engine w))) w)
       [EvTchFreeContext t (fst (TchFreeContext t (engine w)))]).
Proof.
  unfold call_TchFreeContext, on_engine, emit, bind, ret.
  by destruct (TchFreeContext _ _).
Qed.

Lemma call_SpbTargetDeinitialize_eq d spb w :
  call_SpbTargetDeinitialize d spb w =
    (tt, logged (on (SpbTargetDeinitialize d spb (engine w)) w)
           [EvSpbTargetDeinitialize d spb]).
Proof. done. Qed.

Lemma call_SpbTargetInitialize_eq d spb w :
  call_SpbTargetInitialize d spb w =
    (fst (SpbTargetInitialize d spb (engine w)),
     logged (on (snd (SpbTargetInitialize d spb (engine w))) w)
       [EvSpbTargetInitialize d spb (fst (SpbTargetInitialize d spb (engine w)))]).
Proof.
  unfold call_SpbTargetInitialize, on_engine, emit, bind, ret.
  by destruct (SpbTargetInitialize _ _ _).
Qed.

Lemma call_TchStartDevice_eq t spb w :
  call_TchStartDevice t spb w =
    (fst (TchStartDevice t spb (engine w)),
     logged (on (snd (TchStartDevice t spb (engine w))) w)
       [EvTchStartDevice t spb (fst (TchStartDevice t spb (engine w)))]).
Proof.
  unfold call_TchStartDevice, on_engine, emit, bind, ret.
  by destruct (TchStartDevice _ _ _).
Qed.

Lemma call_TchAllocateContext_eq d w :
  call_TchAllocateContext d w =
    let r := TchAllocateContext (TouchContext (devContext w)) d (engine w) in
    (fst (fst r),
     mkWorld (set_TouchContext (snd (fst r)) (devContext w)) (queues w) (snd r)
       (calls w ++ [EvTchAllocateContext d (fst (fst r)) (snd (fst r))])).
Proof.
  unfold call_TchAllocateContext, on_engine, emit, modify_devContext,
    GetDeviceContext, bind, ret.
  by destruct (TchAllocateContext _ _ _) as [[status t] e].
Qed.

End Calls.

Section Dispatch.
Context `{P : Platform}.

Lemma completed_serve_events report request :
  completed (serve_events report request) = [outcome report request].
Proof.
  unfold serve_events, outcome.
  destruct (NT_SUCCESS (OutputBufferStatus request)); simpl; [|done].
  destruct (_ <? _)%nat; done.
Qed.

Lemma retrieved_serve_events report request :
  retrieved (serve_events report request) = [].
Proof.
  unfold serve_events.
  destruct (NT_SUCCESS (OutputBufferStatus request)); simpl; [|done].
  destruct (_ <? _)%nat; done.
Qed.

Lemma dropped_serve_events report request :
  dropped (serve_events report request) = 0%nat.
Proof.
  unfold serve_events.
  destruct (NT_SUCCESS (OutputBufferStatus request)); simpl; [|done].
  destruct (_ <? _)%nat; done.
Qed.

Lemma completed_app t1 t2 : completed (t1 ++ t2) = completed t1 ++ completed t2.
Proof. apply omap_app. Qed.

Lemma retrieved_app t1 t2 : retrieved (t1 ++ t2) = retrieved t1 ++ retrieved t2.
Proof. apply omap_app. Qed.

Lemma dropped_app t1 t2 : dropped (t1 ++ t2) = (dropped t1 + dropped t2)%nat.
Proof. unfold dropped. by rewrite filter_app, length_app. Qed.

(** One iteration, by the state of the queue. *)
Lemma SendHidReports_body_head q reports i w request rest :
  queues w !! q = Some (request :: rest) ->
  SendHidReports_body q reports i w =
    (tt, mkWorld (devContext w) (<[q := rest]> (queues w)) (engine w)
           (calls w ++
              EvRetrieveNextRequest q STATUS_SUCCESS (Some (Handle request))
                :: serve_events (reports i) request)).
Proof.
  intros Hq.
  unfold SendHidReports_body, bind, WdfIoQueueRetrieveNextRequest.
  rewrite Hq, NT_SUCCESS_STATUS_SUCCESS.
  unfold WdfRequestRetrieveOutputBuffer, serve_events, outcome.
  destruct (NT_SUCCESS (OutputBufferStatus request)); simpl.
  - destruct (_ <? _)%nat; simpl;
      unfold Trace, WdfRequestComplete, emit, bind; simpl;
      by rewrite <- ?app_assoc.
  - unfold Trace, WdfRequestComplete, emit, bind; simpl.
    by rewrite <- ?app_assoc.
Qed.

Lemma SendHidReports_body_empty q reports i w :
  pending q w = [] ->
  SendHidReports_body q reports i w =
    (tt, mkWorld (devContext w) (queues w) (engine w)
           (calls w ++ skip_events q)).
Proof.
  unfold pending. intros Hq.
  unfold SendHidReports_body, bind, WdfIoQueueRetrieveNextRequest.
  destruct (queues w !! q) as [[|request rest]|]; simpl in Hq; [|done|];
    rewrite NT_SUCCESS_STATUS_NO_MORE_ENTRIES;
    unfold Trace, emit, skip_events; simpl; by rewrite <- ?app_assoc.
Qed.

Lemma pending_insert q l w d e c :
  pending q (mkWorld d (<[q := l]> (queues w)) e c) = l.
Proof. unfold pending. simpl. by rewrite lookup_insert_eq. Qed.

(** The loop: what it calls, what it leaves in the queue, and what it does
    not touch. *)
Lemma for_loop_SendHidReports q reports n :
  forall i w,
    calls (snd (for_loop n i (SendHidReports_body q reports) w)) =
      calls w ++ loop_events q reports n i (pending q w) /\
    pending q (snd (for_loop n i (SendHidReports_body q reports) w)) =
      drop n (pending q w) /\
    devContext (snd (for_loop n i (SendHidReports_body q reports) w)) =
      devContext w /\
    engine (snd (for_loop n i (SendHidReports_body q reports) w)) = engine w /\
    (forall q', q' <> q ->
       queues (snd (for_loop n i (SendHidReports_body q reports) w)) !! q' =
       queues w !! q').
Proof.
  induction n as [|n IH]; intros i w.
  - simpl. rewrite app_nil_r, drop_0. done.
  - cbn [for_loop loop_events]. rewrite bind_eq.
    destruct (pending q w) as [|request rest] eqn:Hp.
    + rewrite (SendHidReports_body_empty _ _ _ _ Hp). cbn [fst snd].
      destruct (IH (S i) (mkWorld (devContext w) (queues w) (engine w)
                            (calls w ++ skip_events q)))
        as (Hc & Hq & Hd & He & Ho).
      change (pending q (mkWorld (devContext w) (queues w) (engine w)
                           (calls w ++ skip_events q))) with (pending q w) in *.
      rewrite Hp in *. rewrite Hc, Hq, Hd, He, drop_nil.
      cbn [calls devContext engine]. rewrite <- app_assoc.
      done.
    + assert (queues w !! q = Some (request :: rest)) as Hq.
      { unfold pending in Hp. destruct (queues w !! q); simplify_eq/=; done. }
      rewrite (SendHidReports_body_head _ _ _ _ _ _ Hq). cbn [fst snd].
      match goal with
      | |- context [for_loop n (S i) _ ?w1] =>
          destruct (IH (S i) w1) as (Hc & Hq' & Hd & He & Ho)
      end.
      rewrite pending_insert in *.
      rewrite Hc, Hq', Hd, He. cbn [calls devContext engine drop].
      rewrite <- app_assoc. repeat split; try done.
      intros q' Hne. rewrite Ho by done. simpl. by rewrite lookup_insert_ne.
Qed.

Lemma loop_events_cons q reports n i request rest :
  loop_events q reports (S n) i (request :: rest) =
    [EvRetrieveNextRequest q STATUS_SUCCESS (Some (Handle request))]
      ++ serve_events (reports i) request
      ++ loop_events q reports n (S i) rest.
Proof. done. Qed.

Lemma completed_loop_events q reports n :
  forall i waiting,
    completed (loop_events q reports n i waiting) =
    zip_with (fun j request => outcome (reports j) request) (seq i n) waiting.
Proof.
  induction n as [|n IH]; intros i waiting; [done|].
  destruct waiting as [|request rest].
  - cbn [loop_events]. rewrite completed_app, IH. by destruct n.
  - rewrite loop_events_cons, !completed_app, completed_serve_events, IH. done.
Qed.

Lemma retrieved_loop_events q reports n :
  forall i waiting,
    retrieved (loop_events q reports n i waiting) = Handle <$> take n waiting.
Proof.
  induction n as [|n IH]; intros i waiting; [done|].
  destruct waiting as [|request rest].
  - cbn [loop_events]. rewrite retrieved_app, IH, take_nil. done.
  - rewrite loop_events_cons, !retrieved_app, retrieved_serve_events, IH.
    reflexivity.
Qed.

Lemma dropped_loop_events q reports n :
  forall i waiting,
    dropped (loop_events q reports n i waiting) = (n - length waiting)%nat.
Proof.
  induction n as [|n IH]; intros i waiting; [done|].
  destruct waiting as [|request rest].
  - cbn [loop_events]. rewrite dropped_app, IH. simpl. lia.
  - rewrite loop_events_cons, !dropped_app, dropped_serve_events, IH.
    reflexivity.
Qed.

Lemma SendHidReports_calls q reports count w :
  calls (snd (SendHidReports q reports count w)) =
    calls w ++ loop_events q reports (Z.to_nat count) 0 (pending q w).
Proof. unfold SendHidReports. apply for_loop_SendHidReports. Qed.

Lemma SendHidReports_pending q reports count w :
  pending q (snd (SendHidReports q reports count w)) =
    drop (Z.to_nat count) (pending q w).
Proof. unfold SendHidReports. apply for_loop_SendHidReports. Qed.

Lemma SendHidReports_frame q reports count w :
  devContext (snd (SendHidReports q reports count w)) = devContext w /\
  engine (snd (SendHidReports q reports count w)) = engine w /\
  (forall q', q' <> q ->
     queues (snd (SendHidReports q reports count w)) !! q' = queues w !! q').
Proof. unfold SendHidReports. apply for_loop_SendHidReports. Qed.

Lemma completed_loop_events_lookup q reports n waiting i request :
  (i < n)%nat -> waiting !! i = Some request ->
  completed (loop_events q reports n 0 waiting) !! i =
    Some (outcome (reports i) request).
Proof.
  intros Hi Hr.
  rewrite completed_loop_events, lookup_zip_with, lookup_seq_lt, Hr by done.
  done.
Qed.

Lemma outcome_adequate report request :
  adequate request ->
  outcome report request =
    (mkRequest (Handle request) (OutputBufferStatus request)
       (vec_to_list report ++ drop sizeof_HID_INPUT_REPORT (OutputBuffer request))
       (Z.of_nat sizeof_HID_INPUT_REPORT),
     OutputBufferStatus request).
Proof.
  intros [Hs Hl]. unfold outcome, RtlCopyMemory. rewrite Hs. simpl.
  destruct (Nat.ltb_spec (length (OutputBuffer request)) sizeof_HID_INPUT_REPORT);
    [lia|].
  rewrite take_ge; [done|]. by rewrite length_vec_to_list.
Qed.

Lemma outcome_too_small report request :
  NT_SUCCESS (OutputBufferStatus request) = true ->
  (length (OutputBuffer request) < sizeof_HID_INPUT_REPORT)%nat ->
  outcome report request = (request, STATUS_BUFFER_TOO_SMALL).
Proof.
  intros Hs Hl. unfold outcome. rewrite Hs. simpl.
  destruct (Nat.ltb_spec (length (OutputBuffer request)) sizeof_HID_INPUT_REPORT);
    [done|lia].
Qed.

Lemma outcome_no_buffer report request :
  NT_SUCCESS (OutputBufferStatus request) = false ->
  outcome report request = (request, OutputBufferStatus request).
Proof. intros Hs. unfold outcome. by rewrite Hs. Qed.

Lemma outcome_Handle report request :
  Handle (fst (outcome report request)) = Handle request.
Proof.
  unfold outcome. destruct (NT_SUCCESS _); simpl; [|done].
  by destruct (_ <? _)%nat.
Qed.

Lemma completed_loop_events_handles q reports n waiting :
  (Handle ∘ fst) <$> completed (loop_events q reports n 0 waiting) =
    Handle <$> take n waiting.
Proof.
  rewrite completed_loop_events. generalize 0%nat.
  revert waiting. induction n as [|n IH]; intros [|request rest] i; try done.
  cbn [seq zip_with take fmap list_fmap]. simpl.
  rewrite outcome_Handle. f_equal. apply IH.
Qed.

(** ** C2 *)

(** C2. With reports [reports 0 .. reports (n-1)] and a queue of adequate
    requests, the requests are retrieved in queue order, and the [i]-th
    retrieved request is the [i]-th completion: it is completed with success,
    the first [sizeof(HID_INPUT_REPORT)] bytes of its output buffer are the
    bytes of [reports i], the bytes behind them are as they were, and its
    information field is [sizeof(HID_INPUT_REPORT)]. *)
Theorem SendHidReports_order_and_copy
    (q : WDFQUEUE) (reports : nat -> HID_INPUT_REPORT) (n : nat) (w : World) :
  Forall adequate (pending q w) ->
  exists t,
    calls (snd (SendHidReports q reports (Z.of_nat n) w)) = calls w ++ t /\
    retrieved t = Handle <$> take n (pending q w) /\
    length (completed t) = min n (length (pending q w)) /\
    forall i request,
      (i < n)%nat -> pending q w !! i = Some request ->
      exists request' status,
        completed t !! i = Some (request', status) /\
        Handle request' = Handle request /\
        NT_SUCCESS status = true /\
        take sizeof_HID_INPUT_REPORT (OutputBuffer request') =
          vec_to_list (reports i) /\
        drop sizeof_HID_INPUT_REPORT (OutputBuffer request') =
          drop sizeof_HID_INPUT_REPORT (OutputBuffer request) /\
        length (OutputBuffer request') = length (OutputBuffer request) /\
        Information request' = Z.of_nat sizeof_HID_INPUT_REPORT.
Proof.
  intros Hok. eexists. split; [apply SendHidReports_calls|].
  rewrite Nat2Z.id. split; [apply retrieved_loop_events|]. split.
  { rewrite completed_loop_events, length_zip_with, length_seq. done. }
  intros i request Hi Hr.
  assert (adequate request) as Ha by (eapply Forall_lookup; eauto).
  rewrite (completed_loop_events_lookup _ _ _ _ _ _ Hi Hr).
  rewrite (outcome_adequate _ _ Ha). destruct Ha as [Hs Hl].
  eexists _, _. split; [done|]. simpl. repeat split; try done.
  - by rewrite take_app_length' by (by rewrite length_vec_to_list).
  - by rewrite drop_app_length' by (by rewrite length_vec_to_list).
  - rewrite length_app, length_vec_to_list, length_drop. lia.
Qed.

(** ** C4 *)

(** C4. Whatever the other requests in the queue are, the [i]-th retrieved
    request is completed as follows: if its output buffer is handed out with
    a length below [sizeof(HID_INPUT_REPORT)], with [STATUS_BUFFER_TOO_SMALL]
    and the request as it was retrieved; if its output buffer cannot be
    retrieved, with the retrieval status and the request as it was
    retrieved; and if it is adequate, with report [i], also behind requests
    that were completed with a failure. *)
Theorem SendHidReports_buffer_discipline
    (q : WDFQUEUE) (reports : nat -> HID_INPUT_REPORT) (n : nat) (w : World) :
  exists t,
    calls (snd (SendHidReports q reports (Z.of_nat n) w)) = calls w ++ t /\
    NT_SUCCESS STATUS_BUFFER_TOO_SMALL = false /\
    forall i request,
      (i < n)%nat -> pending q w !! i = Some request ->
      (NT_SUCCESS (OutputBufferStatus request) = true ->
       (length (OutputBuffer request) < sizeof_HID_INPUT_REPORT)%nat ->
       completed t !! i = Some (request, STATUS_BUFFER_TOO_SMALL)) /\
      (NT_SUCCESS (OutputBufferStatus request) = false ->
       completed t !! i = Some (request, OutputBufferStatus request)) /\
      (adequate request ->
       exists request',
         completed t !! i = Some (request', OutputBufferStatus request) /\
         Handle request' = Handle request /\
         take sizeof_HID_INPUT_REPORT (OutputBuffer request') =
           vec_to_list (reports i) /\
         Information request' = Z.of_nat sizeof_HID_INPUT_REPORT).
Proof.
  eexists. split; [apply SendHidReports_calls|]. split; [done|].
  rewrite Nat2Z.id. intros i request Hi Hr.
  rewrite (completed_loop_events_lookup _ _ _ _ _ _ Hi Hr).
  split; [|split].
  - intros Hs Hl. by rewrite outcome_too_small.
  - intros Hs. by rewrite outcome_no_buffer.
  - intros Ha. rewrite (outcome_adequate _ _ Ha).
    eexists. split; [done|]. simpl. repeat split; try done.
    by rewrite take_app_length' by (by rewrite length_vec_to_list).
Qed.

(** ** C5 *)

Lemma outcome_well_completed reports i request :
  well_completed reports (outcome (reports i) request).
Proof.
  destruct (NT_SUCCESS (OutputBufferStatus request)) eqn:Hs.
  - destruct (Nat.ltb_spec (length (OutputBuffer request)) sizeof_HID_INPUT_REPORT).
    + rewrite outcome_too_small by done. by left.
    + rewrite outcome_adequate by done. right. split; [done|].
      exists i. simpl. split; [|done].
      by rewrite take_app_length' by (by rewrite length_vec_to_list).
  - rewrite outcome_no_buffer by done. by left.
Qed.

(** C5. In any world and for any count, the completions of a dispatch pass
    are, one for one and in the same order, on the requests that the pass
    retrieved from the queue; each is a failure status or a success with a
    filled buffer. *)
Theorem SendHidReports_one_completion_per_request
    (q : WDFQUEUE) (reports : nat -> HID_INPUT_REPORT) (count : Z) (w : World) :
  exists t,
    calls (snd (SendHidReports q reports count w)) = calls w ++ t /\
    (Handle ∘ fst) <$> completed t = retrieved t /\
    Forall (well_completed reports) (completed t).
Proof.
  eexists. split; [apply SendHidReports_calls|]. split.
  - by rewrite completed_loop_events_handles, retrieved_loop_events.
  - rewrite completed_loop_events. apply Forall_lookup. intros k c.
    rewrite lookup_zip_with. intros Hk.
    destruct (seq 0 (Z.to_nat count) !! k) as [j|]; [|done].
    destruct (pending q w !! k) as [request|]; [|done].
    simpl in Hk. injection Hk as <-. apply outcome_well_completed.
Qed.

End Dispatch.

Section Interrupt.
Context `{P : Platform}.

Lemma OnInterruptIsr_eq Interrupt MessageID w :
  OnInterruptIsr Interrupt MessageID w =
    if NT_SUCCESS (fst (fst (fst (serviced w)))) then
      (true,
       snd (SendHidReports (PingPongQueue (devContext w))
              (snd (fst (fst (serviced w)))) (snd (fst (serviced w)))
              (after_service w)))
    else (true, after_service w).
Proof.
  unfold OnInterruptIsr, call_TchServiceInterrupts, on_engine, emit,
    GetDeviceContext, after_service, serviced.
  rewrite !bind_eq. cbn [fst snd].
  destruct (TchServiceInterrupts _ _ _ _) as [[[status reports] count] e].
  cbn [fst snd bind ret devContext queues engine calls].
  destruct (NT_SUCCESS status); cbn [negb]; [|done].
  rewrite bind_eq. unfold ret.
  by destruct (SendHidReports _ _ _ _) as [[] w'].
Qed.

(** Reports beyond the requests that are waiting leave nothing behind: the
    loop ends in the same world whatever they are. *)
Lemma for_loop_reports_beyond q reports reports' n :
  forall i w,
    (forall j, (i <= j < i + min n (length (pending q w)))%nat ->
               reports' j = reports j) ->
    for_loop n i (SendHidReports_body q reports') w =
    for_loop n i (SendHidReports_body q reports) w.
Proof.
  induction n as [|n IH]; intros i w Hagree; [done|].
  cbn [for_loop]. rewrite !bind_eq.
  destruct (pending q w) as [|request rest] eqn:Hp.
  - rewrite !(SendHidReports_body_empty _ _ _ _ Hp). cbn [fst snd].
    apply IH. intros j Hj. apply Hagree. simpl in *.
    change (pending q _) with (pending q w) in Hj. rewrite Hp in Hj.
    simpl in Hj. lia.
  - assert (queues w !! q = Some (request :: rest)) as Hq.
    { unfold pending in Hp. destruct (queues w !! q); simplify_eq/=; done. }
    rewrite !(SendHidReports_body_head _ _ _ _ _ _ Hq). cbn [fst snd].
    rewrite (Hagree i) by (simpl; lia).
    apply IH. intros j Hj. apply Hagree. rewrite pending_insert in Hj.
    simpl. lia.
Qed.

(** ** C1 *)

(** C1. When [TchServiceInterrupts] succeeds with [n] reports and the
    ping-pong queue holds [p] distinct adequate requests, the ISR completes
    the first [min n p] of them, each once and with success, takes the
    [continue] of the loop for the other [n - min n p] reports, and leaves the
    rest of the queue waiting, which is empty if a report was dropped.
    Dropped reports are kept nowhere: the device context is as before, the
    engine as the service call left it, and the dispatch ends in the same
    world whatever the reports behind the first [min n p] are. *)
Theorem OnInterruptIsr_conservation
    (Interrupt : WDFINTERRUPT) (MessageID : Z) (w : World) (n : nat) :
  NT_SUCCESS (fst (fst (fst (serviced w)))) = true ->
  snd (fst (serviced w)) = Z.of_nat n ->
  Forall adequate (pending (PingPongQueue (devContext w)) w) ->
  NoDup (Handle <$> pending (PingPongQueue (devContext w)) w) ->
  let q := PingPongQueue (devContext w) in
  let p := length (pending q w) in
  let w' := snd (OnInterruptIsr Interrupt MessageID w) in
  exists t,
    calls w' = calls (after_service w) ++ t /\
    length (completed t) = min n p /\
    Forall (fun c => NT_SUCCESS (snd c) = true) (completed t) /\
    (Handle ∘ fst) <$> completed t = take (min n p) (Handle <$> pending q w) /\
    NoDup ((Handle ∘ fst) <$> completed t) /\
    dropped t = (n - min n p)%nat /\
    pending q w' = drop (min n p) (pending q w) /\
    (pending q w' <> [] -> dropped t = 0%nat) /\
    devContext w' = devContext w /\
    engine w' = snd (serviced w) /\
    forall reports',
      (forall j, (j < min n p)%nat -> reports' j = snd (fst (fst (serviced w))) j) ->
      SendHidReports q reports' (Z.of_nat n) (after_service w) = (tt, w').
Proof.
  intros Hs Hn Hok Hnd q p w'. subst w'. fold q in Hok, Hnd.
  rewrite OnInterruptIsr_eq, Hs, Hn. cbn [snd]. fold q.
  set (reports := snd (fst (fst (serviced w)))).
  assert (pending q (after_service w) = pending q w) as Hpw by done.
  eexists. split; [apply SendHidReports_calls|].
  rewrite Nat2Z.id, Hpw.
  assert (take n (pending q w) = take (min n p) (pending q w)) as Htake.
  { subst p. destruct (Nat.le_ge_cases n (length (pending q w))).
    - by rewrite Nat.min_l.
    - rewrite Nat.min_r by done. by rewrite !take_ge. }
  assert (drop n (pending q w) = drop (min n p) (pending q w)) as Hdrop.
  { subst p. destruct (Nat.le_ge_cases n (length (pending q w))).
    - by rewrite Nat.min_l.
    - rewrite Nat.min_r by done. by rewrite !drop_ge. }
  split. { rewrite completed_loop_events, length_zip_with, length_seq. done. }
  split.
  { rewrite completed_loop_events. apply Forall_lookup. intros k c.
    rewrite lookup_zip_with. intros Hk.
    destruct (seq 0 n !! k) as [j|]; [|done].
    destruct (pending q w !! k) as [request|] eqn:Hr; [|done].
    simpl in Hk. injection Hk as <-.
    assert (adequate request) as Ha by (eapply Forall_lookup; eauto).
    rewrite (outcome_adequate _ _ Ha). apply Ha. }
  split. { by rewrite completed_loop_events_handles, Htake, fmap_take. }
  split.
  { rewrite completed_loop_events_handles, fmap_take.
    eapply sublist_NoDup; [done|apply sublist_take]. }
  split. { rewrite dropped_loop_events. subst p. lia. }
  split. { by rewrite SendHidReports_pending, Nat2Z.id, Hpw. }
  split.
  { rewrite SendHidReports_pending, Nat2Z.id, Hpw, dropped_loop_events.
    intros Hne. destruct (Nat.le_gt_cases n (length (pending q w))); [lia|].
    rewrite drop_ge in Hne by lia. done. }
  destruct (SendHidReports_frame q reports (Z.of_nat n) (after_service w))
    as (Hd & He & _).
  split; [done|]. split; [done|].
  intros reports' Hagree.
  transitivity (SendHidReports q reports (Z.of_nat n) (after_service w)).
  - unfold SendHidReports. rewrite Nat2Z.id. apply for_loop_reports_beyond.
    intros j Hj. apply Hagree. rewrite Hpw in Hj. subst p. lia.
  - by destruct (SendHidReports _ _ _ _) as [[] ?].
Qed.

(** ** C3 *)

(** C3. The ISR returns TRUE in every world. When [TchServiceInterrupts]
    answers a failure status, the service call is the only call the ISR
    makes: no request is retrieved or completed, and the queues and the device
    context are as before. *)
Theorem OnInterruptIsr_recognized
    (Interrupt : WDFINTERRUPT) (MessageID : Z) (w : World) :
  fst (OnInterruptIsr Interrupt MessageID w) = true /\
  (NT_SUCCESS (fst (fst (fst (serviced w)))) = false ->
   exists e,
     calls (snd (OnInterruptIsr Interrupt MessageID w)) = calls w ++ [e] /\
     retrieved [e] = [] /\
     completed [e] = [] /\
     queues (snd (OnInterruptIsr Interrupt MessageID w)) = queues w /\
     devContext (snd (OnInterruptIsr Interrupt MessageID w)) = devContext w).
Proof.
  rewrite OnInterruptIsr_eq. split.
  - by destruct (NT_SUCCESS _).
  - intros ->. cbn [snd]. eexists. split; [done|]. done.
Qed.

(** ** C10 *)

Lemma SendHidReports_body_with_flag q reports i b w :
  SendHidReports_body q reports i (with_flag b w) =
    (tt, with_flag b (snd (SendHidReports_body q reports i w))).
Proof.
  destruct (pending q w) as [|request rest] eqn:Hp.
  - rewrite !SendHidReports_body_empty by done. done.
  - assert (queues w !! q = Some (request :: rest)) as Hq.
    { unfold pending in Hp. destruct (queues w !! q); simplify_eq/=; done. }
    rewrite (SendHidReports_body_head _ _ _ w _ _ Hq).
    rewrite (SendHidReports_body_head _ _ _ (with_flag b w) _ _ Hq). done.
Qed.

Lemma for_loop_with_flag q reports b n :
  forall i w,
    for_loop n i (SendHidReports_body q reports) (with_flag b w) =
      (tt, with_flag b (snd (for_loop n i (SendHidReports_body q reports) w))).
Proof.
  induction n as [|n IH]; intros i w; [done|].
  cbn [for_loop]. rewrite !bind_eq, SendHidReports_body_with_flag.
  cbn [fst snd]. apply IH.
Qed.

(** C10. Two runs of the ISR in worlds that differ only in
    [ServiceInterruptsAfterD0Entry] return the same value and end in worlds
    that again differ only in that flag: the same calls with the same
    arguments and results, the same queues, the same engine state. The
    device context, and the flag in it, is at return what it was at entry. *)
Theorem OnInterruptIsr_ignores_flag
    (Interrupt : WDFINTERRUPT) (MessageID : Z) (w : World) (b : bool) :
  OnInterruptIsr Interrupt MessageID (with_flag b w) =
    (fst (OnInterruptIsr Interrupt MessageID w),
     with_flag b (snd (OnInterruptIsr Interrupt MessageID w))) /\
  devContext (snd (OnInterruptIsr Interrupt MessageID w)) = devContext w /\
  ServiceInterruptsAfterD0Entry
    (devContext (snd (OnInterruptIsr Interrupt MessageID (with_flag b w)))) = b.
Proof.
  assert (OnInterruptIsr Interrupt MessageID (with_flag b w) =
            (fst (OnInterruptIsr Interrupt MessageID w),
             with_flag b (snd (OnInterruptIsr Interrupt MessageID w)))) as Heq.
  { rewrite !OnInterruptIsr_eq.
    change (serviced (with_flag b w)) with (serviced w).
    change (after_service (with_flag b w)) with (with_flag b (after_service w)).
    destruct (NT_SUCCESS _); [|done].
    unfold SendHidReports. by rewrite for_loop_with_flag. }
  split; [done|]. split.
  - rewrite OnInterruptIsr_eq. destruct (NT_SUCCESS _); [|done].
    cbn [snd].
    by destruct (SendHidReports_frame (PingPongQueue (devContext w))
                   (snd (fst (fst (serviced w)))) (snd (fst (serviced w)))
                   (after_service w)) as [-> _].
  - by rewrite Heq.
Qed.

End Interrupt.

Section Power.
Context `{P : Platform}.

(** ** C9 *)

(** C9. [OnD0Entry] calls [TchWakeDevice], then (after the error trace, if
    the wake failed) sets [ServiceInterruptsAfterD0Entry] and calls
    [TchCompleteIdleIrp] with the device context in which the flag is TRUE,
    and returns the status of the wake, whether that is a success or not. *)
Theorem OnD0Entry_wake_flag_idle
    (Device : WDFDEVICE) (PreviousState : Z) (w : World) :
  let c := devContext w in
  let woke := TchWakeDevice (TouchContext c) (I2CContext c) (engine w) in
  let c' := set_ServiceInterruptsAfterD0Entry true c in
  let r := OnD0Entry Device PreviousState w in
  fst r = fst woke /\
  devContext (snd r) = c' /\
  ServiceInterruptsAfterD0Entry (devContext (snd r)) = true /\
  engine (snd r) = TchCompleteIdleIrp c' (snd woke) /\
  queues (snd r) = queues w /\
  calls (snd r) =
    calls w
      ++ [EvTchWakeDevice (TouchContext c) (I2CContext c) (fst woke)]
      ++ (if NT_SUCCESS (fst woke) then []
          else [EvTrace TRACE_LEVEL_ERROR
                  "Error setting device to D0 - STATUS:%X" [fst woke]])
      ++ [EvTchCompleteIdleIrp c'].
Proof.
  intros c woke c' r. subst r.
  unfold OnD0Entry, call_TchWakeDevice, call_TchCompleteIdleIrp, on_engine,
    emit, Trace, emit, GetDeviceContext, modify_devContext, bind, ret.
  cbn [devContext queues engine calls]. fold c. fold woke.
  destruct woke as [status e]. cbn [fst snd].
  destruct (NT_SUCCESS status); cbn [negb fst snd devContext queues engine calls];
    rewrite <- ?app_assoc; done.
Qed.

End Power.

Section Release.
Context `{P : Platform}.

(** ** C6 *)

Lemma OnReleaseHardware_eq FxDevice FxResourcesTranslated w :
  let c := devContext w in
  let stopped := TchStopDevice (TouchContext c) (I2CContext c) (engine w) in
  let freed := TchFreeContext (TouchContext c) (snd stopped) in
  OnReleaseHardware FxDevice FxResourcesTranslated w =
    (fst freed,
     mkWorld c (queues w)
       (SpbTargetDeinitialize FxDevice (I2CContext c) (snd freed))
       (calls w
          ++ [EvTchStopDevice (TouchContext c) (I2CContext c) (fst stopped)]
          ++ (if NT_SUCCESS (fst stopped) then []
              else [EvTrace TRACE_LEVEL_ERROR
                      "Error stopping device - STATUS:%X" [fst stopped]])
          ++ [EvTchFreeContext (TouchContext c) (fst freed)]
          ++ (if NT_SUCCESS (fst freed) then []
              else [EvTrace TRACE_LEVEL_ERROR
                      "Error freeing touch context - STATUS:%X" [fst freed]])
          ++ [EvSpbTargetDeinitialize FxDevice (I2CContext c)])).
Proof.
  intros c stopped freed. unfold OnReleaseHardware.
  rewrite bind_eq. unfold GetDeviceContext at 1 2. cbn [fst snd].
  rewrite bind_eq, call_TchStopDevice_eq. cbn [fst snd].
  rewrite bind_eq, Trace_unless_eq. cbn [fst snd].
  rewrite bind_eq, call_TchFreeContext_eq. cbn [fst snd].
  rewrite bind_eq, Trace_unless_eq. cbn [fst snd].
  rewrite bind_eq, call_SpbTargetDeinitialize_eq.
  unfold ret, logged, on. cbn [fst snd devContext queues engine calls].
  fold c. fold stopped. fold freed. by rewrite <- !app_assoc.
Qed.

(** C6. When [TchStopDevice] fails and [TchFreeContext] succeeds,
    [OnReleaseHardware] makes all three teardown calls and traces the failure
    of the stop at error level with its status, and then returns the success
    of [TchFreeContext]: the first non-success status of the steps, the one of
    the stop, is not what it returns. *)
Theorem OnReleaseHardware_swallows_stop_failure
    (FxDevice : WDFDEVICE)
    (FxResourcesTranslated : list CM_PARTIAL_RESOURCE_DESCRIPTOR) (w : World) :
  NT_SUCCESS (fst (stop_result w)) = false ->
  NT_SUCCESS (fst (free_result w)) = true ->
  let c := devContext w in
  let r := OnReleaseHardware FxDevice FxResourcesTranslated w in
  since w (snd r) =
    [EvTchStopDevice (TouchContext c) (I2CContext c) (fst (stop_result w));
     EvTrace TRACE_LEVEL_ERROR "Error stopping device - STATUS:%X"
       [fst (stop_result w)];
     EvTchFreeContext (TouchContext c) (fst (free_result w));
     EvSpbTargetDeinitialize FxDevice (I2CContext c)] /\
  first_failure (step_statuses (since w (snd r))) = Some (fst (stop_result w)) /\
  fst r = fst (free_result w) /\
  NT_SUCCESS (fst r) = true /\
  fst r <> fst (stop_result w).
Proof.
  intros Hstop Hfree c r. subst r c. unfold free_result, stop_result in *.
  rewrite OnReleaseHardware_eq. cbv zeta.
  rewrite Hstop, Hfree. unfold since. cbn [fst snd calls].
  rewrite drop_app_length. cbn [app].
  split; [done|]. split.
  - unfold first_failure, step_statuses. cbn [omap list_omap].
    by rewrite filter_cons_True.
  - split; [done|]. split; [done|]. congruence.
Qed.

End Release.

Section Prepare.
Context `{P : Platform}.

(** ** The resource resolver *)

(** The loop over the indices is a left-to-right pass over the list. *)
Lemma resolve_loop_foldl n :
  forall i l s,
    resolve_loop n i l s =
      foldl (fun s res => resolve_step res s) s (take n (drop i l)).
Proof.
  induction n as [|n IH]; intros i l s; [done|].
  cbn [resolve_loop]. destruct (l !! i) as [res|] eqn:Hi.
  - rewrite (drop_S _ _ _ Hi). cbn [take foldl]. apply IH.
  - rewrite IH. apply lookup_ge_None in Hi.
    rewrite !drop_ge by lia. by rewrite !take_nil.
Qed.

Lemma resolve_loop_all l s :
  resolve_loop (length l) 0 l s = foldl (fun s res => resolve_step res s) s l.
Proof. by rewrite resolve_loop_foldl, drop_0, take_ge. Qed.

Lemma filter_snoc_true {A} (f : A -> bool) (l : list A) (x : A) :
  f x = true -> filter f (l ++ [x]) = filter f l ++ [x].
Proof.
  intros Hx. rewrite filter_app, filter_cons_True, filter_nil; [done|].
  by rewrite Hx.
Qed.

Lemma filter_snoc_false {A} (f : A -> bool) (l : list A) (x : A) :
  f x = false -> filter f (l ++ [x]) = filter f l.
Proof.
  intros Hx. rewrite filter_app, filter_cons_False, filter_nil, app_nil_r;
    [done|].
  rewrite Hx. by intros [].
Qed.

Lemma foldl_resolve_step l c status :
  foldl (fun s res => resolve_step res s) (c, status) l =
    (resolved l c, if existsb is_I2C l then STATUS_SUCCESS else status).
Proof.
  induction l as [|res l IH] using rev_ind.
  - by destruct c as [? ? [?] ? ? ? ? ? ?].
  - rewrite foldl_snoc, IH. unfold resolve_step, resolved.
    rewrite !existsb_app. cbn [existsb fst snd].
    destruct (is_I2C res) eqn:HI, (is_GPIO res) eqn:HG; cbn [fst snd];
      rewrite ?(filter_snoc_true is_I2C) by done;
      rewrite ?(filter_snoc_true is_GPIO) by done;
      rewrite ?(filter_snoc_false is_I2C) by done;
      rewrite ?(filter_snoc_false is_GPIO) by done;
      rewrite ?last_snoc, ?orb_false_r, ?orb_true_r;
      cbn [from_option orb]; done.
Qed.

Lemma resolve_loop_closed l c status :
  resolve_loop (length l) 0 l (c, status) =
    (resolved l c, if existsb is_I2C l then STATUS_SUCCESS else status).
Proof. by rewrite resolve_loop_all, foldl_resolve_step. Qed.

Lemma resolve_step_unrecognized res s :
  recognized res = false -> resolve_step res s = s.
Proof.
  unfold recognized, resolve_step. intros [-> ->]%orb_false_elim. done.
Qed.

Lemma foldl_resolve_step_recognized l :
  forall s,
    foldl (fun s res => resolve_step res s) s (filter recognized l) =
    foldl (fun s res => resolve_step res s) s l.
Proof.
  induction l as [|res l IH]; intros s; [done|].
  destruct (recognized res) eqn:Hr.
  - rewrite filter_cons_True by (by rewrite Hr). cbn [foldl]. apply IH.
  - rewrite filter_cons_False by (rewrite Hr; by intros []). cbn [foldl].
    by rewrite resolve_step_unrecognized, IH.
Qed.

(** No descriptor is of both classes. *)
Lemma is_I2C_not_GPIO res : is_I2C res = true -> is_GPIO res = false.
Proof.
  unfold is_I2C, is_GPIO. intros [[_ Hc]%andb_prop _]%andb_prop.
  apply Z.eqb_eq in Hc. rewrite Hc. by rewrite andb_false_r.
Qed.

(** ** [OnPrepareHardware] after the resource check *)

Lemma OnPrepareHardware_eq FxDevice FxResourcesRaw l w :
  OnPrepareHardware FxDevice FxResourcesRaw l w =
    if existsb is_I2C l then
      bring_up FxDevice (resolved l (devContext w))
        (mkWorld (resolved l (devContext w)) (queues w) (engine w) (calls w))
    else
      (STATUS_INSUFFICIENT_RESOURCES,
       mkWorld (resolved l (devContext w)) (queues w) (engine w)
         (calls w ++ [missing_resource_trace])).
Proof.
  unfold OnPrepareHardware. rewrite bind_eq. unfold GetDeviceContext at 1 2.
  cbn [fst snd]. rewrite resolve_loop_closed.
  destruct (existsb is_I2C l).
  - rewrite NT_SUCCESS_STATUS_SUCCESS. cbn [negb]. by rewrite bind_eq.
  - rewrite NT_SUCCESS_STATUS_INSUFFICIENT_RESOURCES. cbn [negb].
    by rewrite bind_eq.
Qed.

Ltac run_steps :=
  unfold GetDeviceContext, Trace, emit, bind, ret, logged, on;
  cbn [fst snd calls devContext queues engine];
  rewrite <- ?app_assoc.

(** The bring-up starts with the initialization of the bus channel. *)
Lemma bring_up_calls FxDevice c w :
  exists t,
    calls (snd (bring_up FxDevice c w)) =
      calls w
        ++ EvSpbTargetInitialize FxDevice (I2CContext c)
             (fst (SpbTargetInitialize FxDevice (I2CContext c) (engine w)))
        :: t.
Proof.
  unfold bring_up. rewrite bind_eq, call_SpbTargetInitialize_eq. cbn [fst snd].
  destruct (NT_SUCCESS _); cbn [negb].
  - rewrite bind_eq, call_TchAllocateContext_eq. cbn [fst snd].
    destruct (NT_SUCCESS _); cbn [negb].
    + rewrite bind_eq. unfold GetDeviceContext. cbn [fst snd].
      rewrite bind_eq, call_TchStartDevice_eq. cbn [fst snd].
      destruct (NT_SUCCESS _); cbn [negb]; run_steps; eexists; reflexivity.
    + run_steps. eexists. reflexivity.
  - run_steps. eexists. reflexivity.
Qed.

(** The bring-up does not look at the reset GPIO fields. *)
Lemma bring_up_with_gpio FxDevice c c' id b w :
  I2CContext c' = I2CContext c ->
  bring_up FxDevice c' (with_gpio id b w) =
    (fst (bring_up FxDevice c w), with_gpio id b (snd (bring_up FxDevice c w))).
Proof.
  intros Hc. unfold bring_up. rewrite Hc.
  rewrite !bind_eq, !call_SpbTargetInitialize_eq. cbn [fst snd].
  change (engine (with_gpio id b w)) with (engine w).
  destruct (NT_SUCCESS _); cbn [negb]; [|done].
  rewrite !bind_eq, !call_TchAllocateContext_eq. cbn [fst snd].
  cbn [logged on with_gpio devContext engine queues calls set_HasResetGpio
         set_ResetGpioId set_TouchContext TouchContext].
  destruct (NT_SUCCESS _); cbn [negb]; [|done].
  rewrite !bind_eq. unfold GetDeviceContext. cbn [fst snd].
  rewrite ?bind_eq, !call_TchStartDevice_eq. cbn [fst snd].
  cbn [devContext engine TouchContext I2CContext set_TouchContext
         set_HasResetGpio set_ResetGpioId].
  destruct (NT_SUCCESS _); cbn [negb]; done.
Qed.

(** The bring-up writes no field of the device context that the resource
    pass wrote. *)
Lemma bring_up_devContext FxDevice c w :
  I2CContext (devContext (snd (bring_up FxDevice c w))) = I2CContext (devContext w) /\
  ResetGpioId (devContext (snd (bring_up FxDevice c w))) = ResetGpioId (devContext w) /\
  HasResetGpio (devContext (snd (bring_up FxDevice c w))) = HasResetGpio (devContext w).
Proof.
  unfold bring_up. rewrite bind_eq, call_SpbTargetInitialize_eq. cbn [fst snd].
  destruct (NT_SUCCESS _); cbn [negb].
  - rewrite bind_eq, call_TchAllocateContext_eq. cbn [fst snd].
    destruct (NT_SUCCESS _); cbn [negb].
    + rewrite bind_eq. unfold GetDeviceContext. cbn [fst snd].
      rewrite bind_eq, call_TchStartDevice_eq. cbn [fst snd].
      destruct (NT_SUCCESS _); cbn [negb]; run_steps; done.
    + run_steps. done.
  - run_steps. done.
Qed.

Lemma filter_is_I2C_not_GPIO (l : list CM_PARTIAL_RESOURCE_DESCRIPTOR) :
  filter is_I2C (filter not_GPIO l) = filter is_I2C l.
Proof.
  induction l as [|res l IH]; [done|].
  destruct (is_I2C res) eqn:HI.
  - rewrite (filter_cons_True not_GPIO).
    2:{ unfold not_GPIO. by rewrite (is_I2C_not_GPIO _ HI). }
    rewrite !(filter_cons_True is_I2C) by (by rewrite HI). by rewrite IH.
  - rewrite (filter_cons_False is_I2C _ l) by (rewrite HI; by intros []).
    destruct (not_GPIO res) eqn:HG.
    + rewrite (filter_cons_True not_GPIO) by (by rewrite HG).
      by rewrite (filter_cons_False is_I2C) by (rewrite HI; by intros []).
    + by rewrite (filter_cons_False not_GPIO) by (rewrite HG; by intros []).
Qed.

Lemma existsb_filter_nil {A} (f : A -> bool) (l : list A) :
  existsb f l = false <-> filter f l = [].
Proof.
  induction l as [|x l IH]; [done|]. cbn [existsb].
  destruct (f x) eqn:Hx.
  - rewrite filter_cons_True by (by rewrite Hx). done.
  - rewrite filter_cons_False by (rewrite Hx; by intros []). done.
Qed.

Lemma existsb_is_I2C_not_GPIO (l : list CM_PARTIAL_RESOURCE_DESCRIPTOR) :
  existsb is_I2C (filter not_GPIO l) = existsb is_I2C l.
Proof.
  destruct (existsb is_I2C l) eqn:H.
  - apply not_false_iff_true. intros H'%existsb_filter_nil.
    rewrite filter_is_I2C_not_GPIO in H'. apply existsb_filter_nil in H'.
    congruence.
  - apply existsb_filter_nil. rewrite filter_is_I2C_not_GPIO.
    by apply existsb_filter_nil.
Qed.

Lemma resolved_not_GPIO (l : list CM_PARTIAL_RESOURCE_DESCRIPTOR) c :
  resolved l c =
    set_HasResetGpio (HasResetGpio (resolved l c))
      (set_ResetGpioId (ResetGpioId (resolved l c))
         (resolved (filter not_GPIO l) c)).
Proof.
  unfold resolved, set_HasResetGpio, set_ResetGpioId. simpl.
  by rewrite filter_is_I2C_not_GPIO.
Qed.

(** ** C7 *)

(** C7. [OnPrepareHardware] ends with [STATUS_INSUFFICIENT_RESOURCES] and
    without a bring-up call exactly when the list has no Serial/I2C
    descriptor; it then leaves the engine and the touch context alone. With
    a Serial/I2C descriptor the status is the same as for the list without
    its GPIO descriptors. A GPIO I/O descriptor sets [HasResetGpio] and
    leaves the ID of the last one in [ResetGpioId]. *)
Theorem OnPrepareHardware_missing_resource
    (FxDevice : WDFDEVICE)
    (FxResourcesRaw l : list CM_PARTIAL_RESOURCE_DESCRIPTOR) (w : World) :
  let r := OnPrepareHardware FxDevice FxResourcesRaw l w in
  exists t,
    calls (snd r) = calls w ++ t /\
    (fst r = STATUS_INSUFFICIENT_RESOURCES /\ filter is_bring_up_call t = []
     <-> existsb is_I2C l = false) /\
    (existsb is_I2C l = false ->
     NT_SUCCESS (fst r) = false /\
     engine (snd r) = engine w /\
     TouchContext (devContext (snd r)) = TouchContext (devContext w)) /\
    fst (OnPrepareHardware FxDevice FxResourcesRaw (filter not_GPIO l) w) = fst r /\
    (existsb is_GPIO l = true ->
     HasResetGpio (devContext (snd r)) = true /\
     exists res, last (filter is_GPIO l) = Some res /\
                 ResetGpioId (devContext (snd r)) = ConnectionId res).
Proof.
  intros r. subst r. rewrite !OnPrepareHardware_eq.
  rewrite existsb_is_I2C_not_GPIO.
  set (c := devContext w).
  assert (existsb is_GPIO l = true ->
          HasResetGpio (resolved l c) = true /\
          exists res, last (filter is_GPIO l) = Some res /\
                      ResetGpioId (resolved l c) = ConnectionId res) as Hgpio.
  { intros Hg. unfold resolved. cbn [HasResetGpio ResetGpioId]. rewrite Hg.
    split; [done|].
    destruct (last (filter is_GPIO l)) as [res|] eqn:Hlast; [by exists res|].
    apply last_None, existsb_filter_nil in Hlast. congruence. }
  destruct (existsb is_I2C l) eqn:HI.
  - destruct (bring_up_calls FxDevice (resolved l c)
                (mkWorld (resolved l c) (queues w) (engine w) (calls w)))
      as [t Ht].
    destruct (bring_up_devContext FxDevice (resolved l c)
                (mkWorld (resolved l c) (queues w) (engine w) (calls w)))
      as (_ & Hid & Hhas).
    eexists. split; [exact Ht|]. split; [|split; [done|split]].
    + split; [|done]. intros [_ Hnone].
      rewrite filter_cons_True in Hnone by done. done.
    + rewrite (resolved_not_GPIO l c) at 2.
      change (mkWorld (set_HasResetGpio ?b (set_ResetGpioId ?id ?c0)) ?q ?e ?t0)
        with (with_gpio id b (mkWorld c0 q e t0)).
      rewrite (bring_up_with_gpio _ (resolved (filter not_GPIO l) c)); [done|].
      unfold resolved. simpl. by rewrite filter_is_I2C_not_GPIO.
    + intros Hg. rewrite Hid, Hhas. by apply Hgpio.
  - eexists. split; [reflexivity|]. cbn [fst snd devContext engine].
    split; [|split; [|split]]; done.
Qed.

(** ** C8 *)

(** The ID of a descriptor in range is stored bit for bit. *)
Lemma ConnectionId_bits res :
  0 <= IdLowPart res < 2 ^ 32 -> 0 <= IdHighPart res < 2 ^ 32 ->
  LowPart (ConnectionId res) = IdLowPart res /\
  uint32 (HighPart (ConnectionId res)) = IdHighPart res.
Proof.
  intros Hl Hh. unfold ConnectionId, uint32, sint32. cbn [LowPart HighPart].
  split; [by apply Z.mod_small|].
  rewrite Zminus_mod, Zmod_mod, <- Zminus_mod.
  replace (IdHighPart res + 2 ^ 31 - 2 ^ 31) with (IdHighPart res) by lia.
  by apply Z.mod_small.
Qed.

(** C8. The loop is a left-to-right pass over the list. At return the
    device context holds the ID of the last Serial/I2C descriptor of the
    list as its bus ID and the ID of the last GPIO I/O descriptor as its reset
    GPIO ID, and the callback does the same for the list without the
    descriptors of neither class. *)
Theorem OnPrepareHardware_last_wins
    (FxDevice : WDFDEVICE)
    (FxResourcesRaw l : list CM_PARTIAL_RESOURCE_DESCRIPTOR) (w : World) :
  let r := OnPrepareHardware FxDevice FxResourcesRaw l w in
  (forall s,
     resolve_loop (length l) 0 l s =
       foldl (fun s res => resolve_step res s) s l) /\
  (forall res,
     last (filter is_I2C l) = Some res ->
     I2cResHubId (I2CContext (devContext (snd r))) = ConnectionId res) /\
  (forall res,
     last (filter is_GPIO l) = Some res ->
     ResetGpioId (devContext (snd r)) = ConnectionId res) /\
  OnPrepareHardware FxDevice FxResourcesRaw (filter recognized l) w = r.
Proof.
  intros r. subst r. split; [apply resolve_loop_all|].
  assert (OnPrepareHardware FxDevice FxResourcesRaw (filter recognized l) w =
            OnPrepareHardware FxDevice FxResourcesRaw l w) as Hrec.
  { unfold OnPrepareHardware. rewrite !bind_eq.
    unfold GetDeviceContext at 1 2 3 4. cbn [fst snd].
    by rewrite !resolve_loop_all, foldl_resolve_step_recognized. }
  split; [|split; [|exact Hrec]]; rewrite OnPrepareHardware_eq;
    set (c := devContext w);
    (destruct (existsb is_I2C l);
     [destruct (bring_up_devContext FxDevice (resolved l c)
                  (mkWorld (resolved l c) (queues w) (engine w) (calls w)))
        as (HI & HG & _); rewrite ?HI, ?HG|]);
    cbn [snd devContext]; unfold resolved; cbn [I2CContext ResetGpioId];
    intros res ->; done.
Qed.

End Prepare.

(** * The scenarios of the specification *)

Module Scenarios.
Import Scenario.

(** S1: three requests, three reports. *)
Example S1_happy_path :
  let w := world (healthy 3) 0%nat [request 10 4; request 11 4; request 12 4] in
  OnInterruptIsr 0%N 0 w = (true, snd (OnInterruptIsr 0%N 0 w)) /\
  isr_completions (healthy 3) w =
    [(10%N, STATUS_SUCCESS, vec_to_list A, 4);
     (11%N, STATUS_SUCCESS, vec_to_list B, 4);
     (12%N, STATUS_SUCCESS, vec_to_list C, 4)] /\
  pending 5%N (snd (OnInterruptIsr 0%N 0 w)) = [].
Proof. vm_compute. done. Qed.

(** S2: one request, two reports; the second report is dropped. *)
Example S2_producer_overflow :
  let w := world (healthy 2) 0%nat [request 10 4] in
  isr_completions (healthy 2) w = [(10%N, STATUS_SUCCESS, vec_to_list A, 4)] /\
  dropped (calls (snd (OnInterruptIsr 0%N 0 w))) = 1%nat.
Proof. vm_compute. done. Qed.

(** S3: three requests, no report. *)
Example S3_consumer_overflow :
  let w := world (healthy 0) 0%nat [request 10 4; request 11 4; request 12 4] in
  fst (OnInterruptIsr 0%N 0 w) = true /\
  isr_completions (healthy 0) w = [] /\
  pending 5%N (snd (OnInterruptIsr 0%N 0 w)) =
    [request 10 4; request 11 4; request 12 4].
Proof. vm_compute. done. Qed.

(** S4: the first request has a 3-byte buffer; it takes report [A] with it. *)
Example S4_short_buffer :
  let w := world (healthy 2) 0%nat [request 10 3; request 11 6] in
  isr_completions (healthy 2) w =
    [(10%N, STATUS_BUFFER_TOO_SMALL, [x00; x00; x00], 0);
     (11%N, STATUS_SUCCESS, vec_to_list B ++ [x00; x00], 4)].
Proof. vm_compute. done. Qed.

(** S5 and the resource parsing table. *)
Example S5_missing_I2C :
  prepared [] = (STATUS_INSUFFICIENT_RESOURCES, zero, false, zero, 0%nat).
Proof. vm_compute. done. Qed.

Example resources_GPIO_I2C :
  prepared [GPIO 8 0; I2C 9 0] =
    (STATUS_SUCCESS, mkLargeInteger 9 0, true, mkLargeInteger 8 0, 3%nat).
Proof. vm_compute. done. Qed.

Example resources_I2C :
  prepared [I2C 9 0] = (STATUS_SUCCESS, mkLargeInteger 9 0, false, zero, 3%nat).
Proof. vm_compute. done. Qed.

Example resources_I2C_GPIO :
  prepared [I2C 9 0; GPIO 8 0] =
    (STATUS_SUCCESS, mkLargeInteger 9 0, true, mkLargeInteger 8 0, 3%nat).
Proof. vm_compute. done. Qed.

Example resources_GPIO_only :
  prepared [GPIO 8 0] =
    (STATUS_INSUFFICIENT_RESOURCES, zero, true, mkLargeInteger 8 0, 0%nat).
Proof. vm_compute. done. Qed.

Example resources_duplicates :
  prepared [I2C 9 0; IRQ; GPIO 8 0; I2C 3 0xFFFFFFFF; GPIO 4 1] =
    (STATUS_SUCCESS, mkLargeInteger 3 (-1), true, mkLargeInteger 4 1, 3%nat).
Proof. vm_compute. done. Qed.

End Scenarios.

(** * The theorems at concrete inputs *)

Lemma OnInterruptIsr_conservation_witness :
  exists t,
    calls (snd (OnInterruptIsr 0%N 0 Concrete.overflow_world)) =
      calls (after_service Concrete.overflow_world) ++ t /\
    length (completed t) = 1%nat /\
    dropped t = 1%nat /\
    pending 5%N (snd (OnInterruptIsr 0%N 0 Concrete.overflow_world)) = [].
Proof.
  destruct (OnInterruptIsr_conservation (P := Scenario.healthy 2)
              0%N 0 Concrete.overflow_world 2)
    as (t & Hc & Hl & _ & _ & _ & Hd & Hp & _).
  - reflexivity.
  - reflexivity.
  - repeat constructor.
  - vm_compute. repeat constructor. apply not_elem_of_nil.
  - exists t. repeat split; assumption.
Defined.

Lemma SendHidReports_order_and_copy_witness :
  exists t,
    calls (snd (SendHidReports (P := Scenario.healthy 2) 5%N Scenario.reports 2
                  Concrete.two_waiting)) =
      calls Concrete.two_waiting ++ t /\
    retrieved t = [10%N; 11%N] /\
    length (completed t) = 2%nat.
Proof.
  destruct (SendHidReports_order_and_copy (P := Scenario.healthy 2)
              5%N Scenario.reports 2 Concrete.two_waiting)
    as (t & Hc & Hr & Hl & _).
  - repeat constructor.
  - exists t. repeat split; assumption.
Defined.

Lemma OnInterruptIsr_recognized_witness :
  fst (OnInterruptIsr 0%N 0 Concrete.unserviced_world) = true /\
  exists e,
    calls (snd (OnInterruptIsr 0%N 0 Concrete.unserviced_world)) =
      calls Concrete.unserviced_world ++ [e] /\
    retrieved [e] = [] /\
    completed [e] = [] /\
    queues (snd (OnInterruptIsr 0%N 0 Concrete.unserviced_world)) =
      queues Concrete.unserviced_world /\
    devContext (snd (OnInterruptIsr 0%N 0 Concrete.unserviced_world)) =
      devContext Concrete.unserviced_world.
Proof.
  destruct (OnInterruptIsr_recognized (P := Concrete.failing_service) 0%N 0
              Concrete.unserviced_world)
    as [Htrue Hfail].
  split; [exact Htrue|]. apply Hfail. reflexivity.
Defined.

Lemma SendHidReports_buffer_discipline_witness :
  exists t,
    calls (snd (SendHidReports (P := Scenario.healthy 3) 5%N Scenario.reports 3
                  Concrete.mixed_world)) =
      calls Concrete.mixed_world ++ t /\
    completed t !! 0%nat = Some (Scenario.request 10 3, STATUS_BUFFER_TOO_SMALL) /\
    completed t !! 1%nat =
      Some (Scenario.request_without_buffer 11, STATUS_UNSUCCESSFUL) /\
    exists request',
      completed t !! 2%nat = Some (request', STATUS_SUCCESS) /\
      Handle request' = 12%N /\
      take 4 (OutputBuffer request') = vec_to_list Scenario.C.
Proof.
  destruct (SendHidReports_buffer_discipline (P := Scenario.healthy 3)
              5%N Scenario.reports 3 Concrete.mixed_world)
    as (t & Hc & _ & H).
  exists t. split; [exact Hc|]. split; [|split].
  - apply (H 0%nat (Scenario.request 10 3)); [lia|reflexivity|reflexivity|].
    vm_compute. lia.
  - apply (H 1%nat (Scenario.request_without_buffer 11));
      [lia|reflexivity|reflexivity].
  - destruct (H 2%nat (Scenario.request 12 4)) as (_ & _ & Hok);
      [lia|reflexivity|].
    destruct Hok as (request' & H1 & H2 & H3 & _).
    + split; [reflexivity|]. vm_compute. lia.
    + exists request'. repeat split; assumption.
Defined.

Lemma OnReleaseHardware_swallows_stop_failure_witness :
  fst (OnReleaseHardware 1%N [] Concrete.failing_stop_world) = STATUS_SUCCESS /\
  first_failure
    (step_statuses
       (since Concrete.failing_stop_world
          (snd (OnReleaseHardware 1%N [] Concrete.failing_stop_world)))) =
    Some STATUS_UNSUCCESSFUL /\
  filter is_error_trace
    (since Concrete.failing_stop_world
       (snd (OnReleaseHardware 1%N [] Concrete.failing_stop_world))) =
    [EvTrace TRACE_LEVEL_ERROR "Error stopping device - STATUS:%X"
       [STATUS_UNSUCCESSFUL]].
Proof.
  pose proof (OnReleaseHardware_swallows_stop_failure (P := Concrete.failing_stop)
                1%N [] Concrete.failing_stop_world eq_refl eq_refl) as H.
  cbv zeta in H. destruct H as (Hcalls & Hfirst & Hret & _).
  split; [exact Hret|]. split; [exact Hfirst|].
  rewrite Hcalls. reflexivity.
Defined.

(** The first non-success status of the teardown steps is not in general
    what [OnReleaseHardware] returns: when [TchStopDevice] fails and
    [TchFreeContext] succeeds, it returns [STATUS_SUCCESS]. *)
Lemma OnReleaseHardware_not_first_failure :
  ~ (forall (P : Platform) (FxDevice : WDFDEVICE)
       (l : list CM_PARTIAL_RESOURCE_DESCRIPTOR) (w : World) (status : NTSTATUS),
       first_failure
         (step_statuses
            (drop (length (calls w))
               (calls (snd (OnReleaseHardware FxDevice l w))))) = Some status ->
       fst (OnReleaseHardware FxDevice l w) = status).
Proof.
  intros Hclaim.
  specialize (Hclaim Concrete.failing_stop 1%N [] Concrete.failing_stop_world
                STATUS_UNSUCCESSFUL).
  assert (STATUS_SUCCESS = STATUS_UNSUCCESSFUL) as Habs
    by (apply Hclaim; reflexivity).
  discriminate Habs.
Qed.

Lemma OnPrepareHardware_missing_resource_witness :
  fst (OnPrepareHardware 1%N [] [Scenario.GPIO 8 0] Concrete.idle_world) =
    STATUS_INSUFFICIENT_RESOURCES /\
  engine (snd (OnPrepareHardware 1%N [] [Scenario.GPIO 8 0] Concrete.idle_world)) =
    engine Concrete.idle_world /\
  HasResetGpio
    (devContext
       (snd (OnPrepareHardware 1%N [] [Scenario.GPIO 8 0] Concrete.idle_world))) =
    true /\
  ResetGpioId
    (devContext
       (snd (OnPrepareHardware 1%N [] [Scenario.GPIO 8 0] Concrete.idle_world))) =
    mkLargeInteger 8 0.
Proof.
  pose proof (OnPrepareHardware_missing_resource (P := Scenario.healthy 0)
                1%N [] [Scenario.GPIO 8 0] Concrete.idle_world) as H.
  cbv zeta in H. destruct H as (t & _ & Hiff & Hnone & _ & Hgpio).
  destruct Hiff as [_ Hiff]. destruct (Hiff eq_refl) as [Hst _].
  destruct (Hnone eq_refl) as (_ & He & _).
  destruct (Hgpio eq_refl) as (Hhas & res & Hlast & Hid).
  injection Hlast as <-.
  repeat split; assumption.
Defined.

Lemma OnPrepareHardware_last_wins_witness :
  I2cResHubId
    (I2CContext
       (devContext
          (snd (OnPrepareHardware 1%N [] Concrete.duplicated Concrete.idle_world)))) =
    mkLargeInteger 3 0 /\
  ResetGpioId
    (devContext
       (snd (OnPrepareHardware 1%N [] Concrete.duplicated Concrete.idle_world))) =
    mkLargeInteger 4 1.
Proof.
  pose proof (OnPrepareHardware_last_wins (P := Scenario.healthy 0)
                1%N [] Concrete.duplicated Concrete.idle_world) as H.
  cbv zeta in H. destruct H as (_ & HI & HG & _).
  split.
  - apply (HI (Scenario.I2C 3 0)). reflexivity.
  - apply (HG (Scenario.GPIO 4 1)). reflexivity.
Defined.

(** * Further properties of the dispatch *)

Section MoreDispatch.
Context `{P : Platform}.

Lemma since_app (w w' : World) t : calls w' = calls w ++ t -> since w w' = t.
Proof. unfold since. intros ->. by rewrite drop_app_length. Qed.

Lemma since_SendHidReports q reports count w :
  since w (snd (SendHidReports q reports count w)) =
    loop_events q reports (Z.to_nat count) 0 (pending q w).
Proof. apply since_app, SendHidReports_calls. Qed.

(** X1. Every report of a pass is accounted for once, whatever is waiting: an
    iteration either completes the request it retrieved or drops its report,
    and requests are retrieved as long as there are any. *)
Theorem SendHidReports_accounting
    (q : WDFQUEUE) (reports : nat -> HID_INPUT_REPORT) (count : Z) (w : World) :
  let t := since w (snd (SendHidReports q reports count w)) in
  calls (snd (SendHidReports q reports count w)) = calls w ++ t /\
  (length (completed t) + dropped t = Z.to_nat count)%nat /\
  length (retrieved t) = length (completed t) /\
  length (completed t) = min (Z.to_nat count) (length (pending q w)).
Proof.
  intros t. subst t. rewrite since_SendHidReports.
  split; [apply SendHidReports_calls|].
  rewrite completed_loop_events, retrieved_loop_events, dropped_loop_events.
  rewrite length_zip_with, length_seq, length_fmap, length_take. lia.
Qed.

Lemma outcome_bounds report request :
  Handle (fst (outcome report request)) = Handle request /\
  OutputBufferStatus (fst (outcome report request)) = OutputBufferStatus request /\
  length (OutputBuffer (fst (outcome report request))) =
    length (OutputBuffer request) /\
  (NT_SUCCESS (snd (outcome report request)) = false ->
   fst (outcome report request) = request) /\
  (NT_SUCCESS (snd (outcome report request)) = true -> adequate request).
Proof.
  destruct (NT_SUCCESS (OutputBufferStatus request)) eqn:Hs.
  - destruct (Nat.ltb_spec (length (OutputBuffer request)) sizeof_HID_INPUT_REPORT).
    + rewrite outcome_too_small by done. cbn [fst snd].
      rewrite NT_SUCCESS_STATUS_BUFFER_TOO_SMALL. done.
    + rewrite outcome_adequate by done. cbn [fst snd Handle OutputBufferStatus
        OutputBuffer]. rewrite Hs, length_app, length_vec_to_list, length_drop.
      repeat split; try done; lia.
  - rewrite outcome_no_buffer by done. cbn [fst snd]. rewrite Hs. done.
Qed.

(** X2. The completion of the [i]-th waiting request keeps its handle and the
    length of its output buffer, whatever the request is; a completion with
    a failure status hands the request back as it was retrieved, and a
    completion with a success status is only made for an adequate request. *)
Theorem SendHidReports_buffer_bounds
    (q : WDFQUEUE) (reports : nat -> HID_INPUT_REPORT) (count : Z) (w : World)
    (i : nat) (request : WDFREQUEST) :
  (i < Z.to_nat count)%nat ->
  pending q w !! i = Some request ->
  exists request' status,
    completed (since w (snd (SendHidReports q reports count w))) !! i =
      Some (request', status) /\
    Handle request' = Handle request /\
    length (OutputBuffer request') = length (OutputBuffer request) /\
    (NT_SUCCESS status = false -> request' = request) /\
    (NT_SUCCESS status = true -> adequate request).
Proof.
  intros Hi Hr. rewrite since_SendHidReports.
  rewrite (completed_loop_events_lookup _ _ _ _ _ _ Hi Hr).
  destruct (outcome_bounds (reports i) request) as (Hh & _ & Hl & Hf & Hs).
  exists (fst (outcome (reports i) request)), (snd (outcome (reports i) request)).
  split; [by destruct (outcome _ _)|]. done.
Qed.

(** X3. A pass works on its queue alone: the other queues, the device context
    and the engine are as before, and the requests it did not retrieve wait
    in the queue as they were. *)
Theorem SendHidReports_touches_one_queue
    (q : WDFQUEUE) (reports : nat -> HID_INPUT_REPORT) (count : Z) (w : World) :
  delete q (queues (snd (SendHidReports q reports count w))) = delete q (queues w) /\
  pending q (snd (SendHidReports q reports count w)) =
    drop (Z.to_nat count) (pending q w) /\
  devContext (snd (SendHidReports q reports count w)) = devContext w /\
  engine (snd (SendHidReports q reports count w)) = engine w.
Proof.
  destruct (SendHidReports_frame q reports count w) as (Hd & He & Ho).
  split; [|split; [apply SendHidReports_pending|done]].
  apply map_eq. intros q'. destruct (decide (q' = q)) as [->|Hne].
  - by rewrite !lookup_delete_eq.
  - rewrite !lookup_delete_ne by done. by apply Ho.
Qed.

Lemma for_loop_app (body : nat -> M unit) n m :
  forall i w,
    for_loop (n + m) i body w =
      for_loop m (i + n) body (snd (for_loop n i body w)).
Proof.
  induction n as [|n IH]; intros i w.
  - cbn [Nat.add for_loop]. by rewrite Nat.add_0_r.
  - cbn [Nat.add for_loop]. rewrite !bind_eq, IH.
    by replace (S i + n)%nat with (i + S n)%nat by lia.
Qed.

Lemma for_loop_shift (body body' : nat -> M unit) k m :
  (forall j w, body' j w = body (k + j)%nat w) ->
  forall i w, for_loop m i body' w = for_loop m (k + i) body w.
Proof.
  intros Hb. induction m as [|m IH]; intros i w; [done|].
  cbn [for_loop]. rewrite !bind_eq, Hb, IH.
  by replace (k + S i)%nat with (S (k + i)) by lia.
Qed.

(** X4. Two passes in a row, the second over the reports behind the first [n],
    do what one pass over all [n + m] reports does. *)
Theorem SendHidReports_split
    (q : WDFQUEUE) (reports : nat -> HID_INPUT_REPORT) (n m : nat) (w : World) :
  SendHidReports q reports (Z.of_nat (n + m)) w =
    SendHidReports q (fun i => reports (n + i)%nat) (Z.of_nat m)
      (snd (SendHidReports q reports (Z.of_nat n) w)).
Proof.
  unfold SendHidReports. rewrite !Nat2Z.id, for_loop_app.
  symmetry. rewrite (for_loop_shift (SendHidReports_body q reports) _ n).
  - by rewrite Nat.add_0_r.
  - done.
Qed.

Lemma for_loop_empty_queue q reports n :
  forall i w,
    pending q w = [] ->
    for_loop n i (SendHidReports_body q reports) w =
      (tt, logged w (concat (replicate n (skip_events q)))).
Proof.
  induction n as [|n IH]; intros i w Hp.
  - destruct w. unfold logged. cbn. by rewrite app_nil_r.
  - cbn [for_loop]. rewrite bind_eq, SendHidReports_body_empty by done.
    cbn [fst snd]. rewrite IH by done. unfold logged.
    cbn [devContext queues engine calls replicate concat].
    by rewrite <- app_assoc.
Qed.

(** X5. With nothing waiting, every report of the pass is dropped with an
    error trace: nothing is completed, and queues, device context and engine
    are as before. *)
Theorem SendHidReports_empty_queue
    (q : WDFQUEUE) (reports : nat -> HID_INPUT_REPORT) (n : nat) (w : World) :
  pending q w = [] ->
  let w' := snd (SendHidReports q reports (Z.of_nat n) w) in
  queues w' = queues w /\ devContext w' = devContext w /\ engine w' = engine w /\
  completed (since w w') = [] /\
  retrieved (since w w') = [] /\
  dropped (since w w') = n /\
  length (filter is_error_trace (since w w')) = n.
Proof.
  intros Hp w'. subst w'. unfold SendHidReports.
  rewrite Nat2Z.id, for_loop_empty_queue by done. cbn [snd].
  rewrite (since_app w _ (concat (replicate n (skip_events q)))) by done.
  do 3 (split; [done|]).
  induction n as [|n IH]; [done|].
  cbn [replicate concat]. rewrite completed_app, retrieved_app, dropped_app,
    filter_app, length_app.
  destruct IH as (-> & -> & -> & ->). done.
Qed.

(** X6. A service call that succeeds with a count that is not positive
    dispatches nothing: the ISR returns TRUE and the world is as the service
    call left it. *)
Theorem OnInterruptIsr_no_reports
    (Interrupt : WDFINTERRUPT) (MessageID : Z) (w : World) :
  NT_SUCCESS (fst (fst (fst (serviced w)))) = true ->
  snd (fst (serviced w)) <= 0 ->
  OnInterruptIsr Interrupt MessageID w = (true, after_service w).
Proof.
  intros Hs Hc. rewrite OnInterruptIsr_eq, Hs. unfold SendHidReports.
  by rewrite Z2Nat.nonpos.
Qed.

End MoreDispatch.

(** * Power callbacks *)

Section MorePower.
Context `{IO : IoPlatform}.

Lemma on_engine_eq {A} (f : Engine -> A * Engine) (w : World) :
  on_engine f w = (fst (f (engine w)), on (snd (f (engine w))) w).
Proof. unfold on_engine, on. by destruct (f (engine w)). Qed.

Lemma OnD0Exit_eq Device TargetState w :
  OnD0Exit Device TargetState w =
    (fst (TchStandbyDevice (TouchContext (devContext w)) (I2CContext (devContext w))
            (engine w)),
     logged
       (on (snd (TchStandbyDevice (TouchContext (devContext w))
                   (I2CContext (devContext w)) (engine w))) w)
       (if NT_SUCCESS
             (fst (TchStandbyDevice (TouchContext (devContext w))
                     (I2CContext (devContext w)) (engine w)))
        then []
        else [EvTrace TRACE_LEVEL_ERROR "Error exiting D0 - STATUS:%X"
                [fst (TchStandbyDevice (TouchContext (devContext w))
                        (I2CContext (devContext w)) (engine w))]])).
Proof.
  unfold OnD0Exit. rewrite bind_eq. unfold GetDeviceContext. cbn [fst snd].
  rewrite bind_eq, on_engine_eq. cbn [fst snd].
  rewrite bind_eq, Trace_unless_eq. done.
Qed.

Lemma OnD0Entry_eq Device PreviousState w :
  let c := devContext w in
  let woke := TchWakeDevice (TouchContext c) (I2CContext c) (engine w) in
  let c' := set_ServiceInterruptsAfterD0Entry true c in
  OnD0Entry Device PreviousState w =
    (fst woke,
     mkWorld c' (queues w) (TchCompleteIdleIrp c' (snd woke))
       (calls w
          ++ [EvTchWakeDevice (TouchContext c) (I2CContext c) (fst woke)]
          ++ (if NT_SUCCESS (fst woke) then []
              else [EvTrace TRACE_LEVEL_ERROR
                      "Error setting device to D0 - STATUS:%X" [fst woke]])
          ++ [EvTchCompleteIdleIrp c'])).
Proof.
  intros c woke c'.
  unfold OnD0Entry, call_TchWakeDevice, call_TchCompleteIdleIrp, on_engine,
    emit, Trace, emit, GetDeviceContext, modify_devContext, bind, ret.
  cbn [devContext queues engine calls]. fold c. fold woke.
  destruct woke as [status e]. cbn [fst snd].
  destruct (NT_SUCCESS status); cbn [negb fst snd devContext queues engine calls];
    rewrite <- ?app_assoc; done.
Qed.

(** X7. [OnD0Exit] returns the status of [TchStandbyDevice], success or not, and
    changes nothing of the driver's own state: the device context and the
    queues are as before; it leaves one error trace if the standby failed and
    no call record otherwise. *)
Theorem OnD0Exit_standby_status
    (Device : WDFDEVICE) (TargetState : Z) (w : World) :
  let c := devContext w in
  let stood := TchStandbyDevice (TouchContext c) (I2CContext c) (engine w) in
  let r := OnD0Exit Device TargetState w in
  fst r = fst stood /\
  engine (snd r) = snd stood /\
  devContext (snd r) = c /\
  queues (snd r) = queues w /\
  since w (snd r) =
    if NT_SUCCESS (fst stood) then []
    else [EvTrace TRACE_LEVEL_ERROR "Error exiting D0 - STATUS:%X" [fst stood]].
Proof.
  intros c stood r. subst r. rewrite OnD0Exit_eq. fold c. fold stood.
  cbn [fst snd logged on devContext queues engine].
  do 4 (split; [done|]). by apply since_app.
Qed.

(** X8. Leaving D0 and entering it again: the wake runs on the engine as the
    standby left it and with the same touch and bus contexts, its status is
    what the entry returns whatever the standby returned, the flag is TRUE
    afterwards, and the rest of the device context and the queues are as
    before the exit. *)
Theorem power_cycle
    (Device : WDFDEVICE) (TargetState PreviousState : Z) (w : World) :
  let c := devContext w in
  let stood := TchStandbyDevice (TouchContext c) (I2CContext c) (engine w) in
  let woke := TchWakeDevice (TouchContext c) (I2CContext c) (snd stood) in
  let c' := set_ServiceInterruptsAfterD0Entry true c in
  let r := OnD0Entry Device PreviousState (snd (OnD0Exit Device TargetState w)) in
  fst r = fst woke /\
  devContext (snd r) = c' /\
  engine (snd r) = TchCompleteIdleIrp c' (snd woke) /\
  queues (snd r) = queues w /\
  filter (fun e => negb (is_error_trace e))
    (since w (snd r)) =
    [EvTchWakeDevice (TouchContext c) (I2CContext c) (fst woke);
     EvTchCompleteIdleIrp c'].
Proof.
  intros c stood woke c' r. subst r.
  rewrite OnD0Exit_eq, OnD0Entry_eq. fold c. fold stood.
  cbn [fst snd logged on devContext queues engine calls]. fold woke. fold c'.
  do 4 (split; [done|]).
  erewrite since_app by (cbn [calls]; rewrite <- app_assoc; reflexivity).
  subst woke c' c.
  destruct (NT_SUCCESS (fst stood)),
    (NT_SUCCESS (fst (TchWakeDevice _ _ _))); reflexivity.
Qed.

End MorePower.

(** * Further properties of the PnP callbacks *)

Ltac unfold_steps :=
  unfold GetDeviceContext, Trace, emit, bind, ret, logged, on;
  cbn [fst snd calls devContext queues engine];
  rewrite <- ?app_assoc.

Section MorePrepare.
Context `{P : Platform}.

(** The bring-up, by the statuses of its calls. *)
Lemma bring_up_eq FxDevice c w :
  let s1 := SpbTargetInitialize FxDevice (I2CContext c) (engine w) in
  let a := TchAllocateContext (TouchContext (devContext w)) FxDevice (snd s1) in
  let c1 := set_TouchContext (snd (fst a)) (devContext w) in
  let s3 := TchStartDevice (snd (fst a)) (I2CContext (devContext w)) (snd a) in
  bring_up FxDevice c w =
    if NT_SUCCESS (fst s1) then
      if NT_SUCCESS (fst (fst a)) then
        (fst s3,
         mkWorld c1 (queues w) (snd s3)
           (calls w
              ++ [EvSpbTargetInitialize FxDevice (I2CContext c) (fst s1);
                  EvTchAllocateContext FxDevice (fst (fst a)) (snd (fst a));
                  EvTchStartDevice (snd (fst a)) (I2CContext (devContext w))
                    (fst s3)]
              ++ (if NT_SUCCESS (fst s3) then []
                  else [EvTrace TRACE_LEVEL_ERROR
                          "Error starting touch device - STATUS:%X" [fst s3]])))
      else
        (fst (fst a),
         mkWorld c1 (queues w) (snd a)
           (calls w
              ++ [EvSpbTargetInitialize FxDevice (I2CContext c) (fst s1);
                  EvTchAllocateContext FxDevice (fst (fst a)) (snd (fst a));
                  EvTrace TRACE_LEVEL_ERROR
                    "Error allocating touch context - STATUS:%X" [fst (fst a)]]))
    else
      (fst s1,
       mkWorld (devContext w) (queues w) (snd s1)
         (calls w
            ++ [EvSpbTargetInitialize FxDevice (I2CContext c) (fst s1);
                EvTrace TRACE_LEVEL_ERROR
                  "Error in Spb initialization - STATUS:%X" [fst s1]])).
Proof.
  intros s1 a c1 s3. unfold bring_up.
  rewrite bind_eq, call_SpbTargetInitialize_eq. cbn [fst snd]. fold s1.
  destruct (NT_SUCCESS (fst s1)); cbn [negb].
  - rewrite bind_eq, call_TchAllocateContext_eq. cbn [fst snd].
    cbn [logged on devContext engine]. fold a.
    destruct (NT_SUCCESS (fst (fst a))); cbn [negb].
    + rewrite bind_eq. unfold GetDeviceContext. cbn [fst snd].
      rewrite bind_eq, call_TchStartDevice_eq. cbn [fst snd].
      cbn [devContext engine TouchContext I2CContext set_TouchContext].
      fold s3. destruct (NT_SUCCESS (fst s3)); cbn [negb]; unfold_steps;
        rewrite ?app_nil_r; done.
    + unfold_steps. done.
  - unfold_steps. done.
Qed.

Lemma since_mkWorld (w : World) c qs e t :
  since w (mkWorld c qs e (calls w ++ t)) = t.
Proof. by apply since_app. Qed.

Lemma OnPrepareHardware_fields FxDevice FxResourcesRaw l w :
  I2CContext (devContext (snd (OnPrepareHardware FxDevice FxResourcesRaw l w))) =
    I2CContext (resolved l (devContext w)) /\
  ResetGpioId (devContext (snd (OnPrepareHardware FxDevice FxResourcesRaw l w))) =
    ResetGpioId (resolved l (devContext w)) /\
  HasResetGpio (devContext (snd (OnPrepareHardware FxDevice FxResourcesRaw l w))) =
    HasResetGpio (resolved l (devContext w)).
Proof.
  rewrite OnPrepareHardware_eq. destruct (existsb is_I2C l); [|done].
  apply (bring_up_devContext FxDevice (resolved l (devContext w))
           (mkWorld (resolved l (devContext w)) (queues w) (engine w) (calls w))).
Qed.

(** X9. With a Serial/I2C descriptor in the list, the bring-up calls are
    [SpbTargetInitialize] on the resolved bus context, then
    [TchAllocateContext], then [TchStartDevice] on the allocated touch context
    and the same bus context, in this order and cut off behind the first that
    fails: of the [k] calls made, every one before the last succeeded, the
    status of the last is the status returned, and fewer than three are made
    only when the last one failed. *)
Theorem OnPrepareHardware_first_failure
    (FxDevice : WDFDEVICE)
    (FxResourcesRaw l : list CM_PARTIAL_RESOURCE_DESCRIPTOR) (w : World) :
  existsb is_I2C l = true ->
  exists k s1 s2 s3 t,
    (1 <= k <= 3)%nat /\
    filter is_bring_up_call
      (since w (snd (OnPrepareHardware FxDevice FxResourcesRaw l w))) =
      take k
        [EvSpbTargetInitialize FxDevice (I2CContext (resolved l (devContext w))) s1;
         EvTchAllocateContext FxDevice s2 t;
         EvTchStartDevice t (I2CContext (resolved l (devContext w))) s3] /\
    s1 = fst (SpbTargetInitialize FxDevice
                (I2CContext (resolved l (devContext w))) (engine w)) /\
    bring_up_statuses
      (since w (snd (OnPrepareHardware FxDevice FxResourcesRaw l w))) =
      take k [s1; s2; s3] /\
    Forall (fun status => NT_SUCCESS status = true) (take (k - 1) [s1; s2; s3]) /\
    [s1; s2; s3] !! (k - 1)%nat =
      Some (fst (OnPrepareHardware FxDevice FxResourcesRaw l w)) /\
    ((k < 3)%nat ->
     NT_SUCCESS (fst (OnPrepareHardware FxDevice FxResourcesRaw l w)) = false).
Proof.
  intros HI. rewrite OnPrepareHardware_eq, HI, bring_up_eq.
  cbn [devContext queues engine calls].
  set (c := resolved l (devContext w)).
  set (s1 := SpbTargetInitialize FxDevice (I2CContext c) (engine w)).
  set (a := TchAllocateContext (TouchContext c) FxDevice (snd s1)).
  set (s3 := TchStartDevice (snd (fst a)) (I2CContext c) (snd a)).
  destruct (NT_SUCCESS (fst s1)) eqn:H1.
  - destruct (NT_SUCCESS (fst (fst a))) eqn:H2.
    + exists 3%nat, (fst s1), (fst (fst a)), (fst s3), (snd (fst a)).
      cbn [fst snd]. rewrite since_mkWorld.
      split; [lia|]. split; [by destruct (NT_SUCCESS (fst s3))|].
      split; [done|]. split; [by destruct (NT_SUCCESS (fst s3))|].
      split; [by repeat constructor|]. split; [done|lia].
    + exists 2%nat, (fst s1), (fst (fst a)), 0, (snd (fst a)).
      cbn [fst snd]. rewrite since_mkWorld.
      split; [lia|]. do 3 (split; [done|]).
      split; [by repeat constructor|]. done.
  - exists 1%nat, (fst s1), 0, 0, 0%N.
    cbn [fst snd]. rewrite since_mkWorld.
    split; [lia|]. do 3 (split; [done|]). split; [constructor|]. done.
Qed.

(** X10. [OnPrepareHardware] never tears down what it brought up: it makes no
    teardown call, also when a later step fails; it leaves one error trace
    when it fails and none when it succeeds; the queues are as before. *)
Theorem OnPrepareHardware_never_unwinds
    (FxDevice : WDFDEVICE)
    (FxResourcesRaw l : list CM_PARTIAL_RESOURCE_DESCRIPTOR) (w : World) :
  let r := OnPrepareHardware FxDevice FxResourcesRaw l w in
  filter is_teardown_step (since w (snd r)) = [] /\
  length (filter is_error_trace (since w (snd r))) =
    (if NT_SUCCESS (fst r) then 0%nat else 1%nat) /\
  queues (snd r) = queues w.
Proof.
  intros r. subst r. rewrite OnPrepareHardware_eq.
  destruct (existsb is_I2C l).
  - rewrite bring_up_eq. cbn [devContext queues engine calls].
    set (c := resolved l (devContext w)).
    set (s1 := SpbTargetInitialize FxDevice (I2CContext c) (engine w)).
    set (a := TchAllocateContext (TouchContext c) FxDevice (snd s1)).
    set (s3 := TchStartDevice (snd (fst a)) (I2CContext c) (snd a)).
    destruct (NT_SUCCESS (fst s1)) eqn:H1.
    + destruct (NT_SUCCESS (fst (fst a))) eqn:H2.
      * cbn [fst snd queues]. rewrite since_mkWorld.
        destruct (NT_SUCCESS (fst s3)) eqn:H3; done.
      * cbn [fst snd queues]. rewrite since_mkWorld, H2. done.
    + cbn [fst snd queues]. rewrite since_mkWorld, H1. done.
  - cbn [fst snd queues]. rewrite since_mkWorld.
    rewrite NT_SUCCESS_STATUS_INSUFFICIENT_RESOURCES. done.
Qed.

(** X11. A release after a successful prepare hands the teardown calls what the
    bring-up calls were handed: the touch context that
    [TchAllocateContext] returned, the bus context that [SpbTargetInitialize]
    was given, and for the same device the device that was prepared. *)
Theorem prepare_release_pairing
    (FxDevice : WDFDEVICE)
    (FxResourcesRaw l l' : list CM_PARTIAL_RESOURCE_DESCRIPTOR) (w : World) :
  NT_SUCCESS (fst (OnPrepareHardware FxDevice FxResourcesRaw l w)) = true ->
  let w1 := snd (OnPrepareHardware FxDevice FxResourcesRaw l w) in
  let w2 := snd (OnReleaseHardware FxDevice l' w1) in
  exists t spb s1 s2 s3 s4 s5,
    filter is_bring_up_call (since w w1) =
      [EvSpbTargetInitialize FxDevice spb s1;
       EvTchAllocateContext FxDevice s2 t;
       EvTchStartDevice t spb s3] /\
    filter is_teardown_step (since w1 w2) =
      [EvTchStopDevice t spb s4;
       EvTchFreeContext t s5;
       EvSpbTargetDeinitialize FxDevice spb] /\
    spb = I2CContext (resolved l (devContext w)) /\
    TouchContext (devContext w2) = t.
Proof.
  intros Hok w1 w2. subst w2 w1. revert Hok.
  rewrite OnPrepareHardware_eq.
  destruct (existsb is_I2C l).
  2:{ cbn [fst]. rewrite NT_SUCCESS_STATUS_INSUFFICIENT_RESOURCES. done. }
  rewrite bring_up_eq. cbn [devContext queues engine calls].
  set (c := resolved l (devContext w)).
  set (s1 := SpbTargetInitialize FxDevice (I2CContext c) (engine w)).
  set (a := TchAllocateContext (TouchContext c) FxDevice (snd s1)).
  set (s3 := TchStartDevice (snd (fst a)) (I2CContext c) (snd a)).
  destruct (NT_SUCCESS (fst s1)) eqn:H1; [|cbn [fst]; congruence].
  destruct (NT_SUCCESS (fst (fst a))) eqn:H2; [|cbn [fst]; congruence].
  cbn [fst snd]. intros H3. rewrite H3, app_nil_r.
  rewrite since_mkWorld, OnReleaseHardware_eq.
  cbn [fst snd devContext queues engine calls TouchContext I2CContext
         set_TouchContext].
  eexists _, _, _, _, _, _, _. split; [reflexivity|].
  split; [|done].
  erewrite since_app by (cbn [calls]; reflexivity).
  match goal with
  | |- context [NT_SUCCESS (fst ?x)] => destruct (NT_SUCCESS (fst x))
  end;
  match goal with
  | |- context [NT_SUCCESS (fst ?x)] => destruct (NT_SUCCESS (fst x))
  end; reflexivity.
Qed.

(** X12. What the list does not name stays: without a Serial/I2C descriptor the
    bus context keeps the ID it had, without a GPIO I/O descriptor the reset
    GPIO ID and [HasResetGpio] keep their values, and [HasResetGpio] is never
    cleared. *)
Theorem OnPrepareHardware_keeps_unnamed
    (FxDevice : WDFDEVICE)
    (FxResourcesRaw l : list CM_PARTIAL_RESOURCE_DESCRIPTOR) (w : World) :
  let c' := devContext (snd (OnPrepareHardware FxDevice FxResourcesRaw l w)) in
  (existsb is_I2C l = false -> I2CContext c' = I2CContext (devContext w)) /\
  (existsb is_GPIO l = false ->
   ResetGpioId c' = ResetGpioId (devContext w) /\
   HasResetGpio c' = HasResetGpio (devContext w)) /\
  (HasResetGpio (devContext w) = true -> HasResetGpio c' = true).
Proof.
  intros c'. subst c'.
  destruct (OnPrepareHardware_fields FxDevice FxResourcesRaw l w)
    as (-> & -> & ->).
  unfold resolved. cbn [I2CContext ResetGpioId HasResetGpio].
  split; [|split].
  - intros ->%existsb_filter_nil. done.
  - intros H. rewrite H. apply existsb_filter_nil in H. rewrite H. done.
  - intros ->. by rewrite orb_true_r.
Qed.

Lemma existsb_of_filter {A} (f : A -> bool) (l1 l2 : list A) :
  filter f l1 = filter f l2 -> existsb f l1 = existsb f l2.
Proof.
  intros H. destruct (existsb f l2) eqn:H2.
  - apply not_false_iff_true. intros H1%existsb_filter_nil.
    rewrite H1 in H. symmetry in H. apply existsb_filter_nil in H. congruence.
  - apply existsb_filter_nil. rewrite H. by apply existsb_filter_nil.
Qed.

(** X13. Only the order within a class counts: two lists with the same
    Serial/I2C descriptors in the same order and the same GPIO I/O
    descriptors in the same order make [OnPrepareHardware] do the same,
    however the two classes and other descriptors are interleaved. *)
Theorem OnPrepareHardware_class_order
    (FxDevice : WDFDEVICE)
    (raw1 raw2 l1 l2 : list CM_PARTIAL_RESOURCE_DESCRIPTOR) (w : World) :
  filter is_I2C l1 = filter is_I2C l2 ->
  filter is_GPIO l1 = filter is_GPIO l2 ->
  OnPrepareHardware FxDevice raw1 l1 w = OnPrepareHardware FxDevice raw2 l2 w.
Proof.
  intros HI HG. rewrite !OnPrepareHardware_eq.
  assert (resolved l1 (devContext w) = resolved l2 (devContext w)) as ->.
  { unfold resolved. by rewrite HI, HG, (existsb_of_filter is_GPIO l1 l2). }
  by rewrite (existsb_of_filter is_I2C l1 l2).
Qed.

(** X14. Preparing, releasing and preparing again with the same list leaves the
    bus ID, the reset GPIO ID and [HasResetGpio] as the first prepare left
    them, whatever the statuses of the calls in between. *)
Theorem prepare_release_prepare
    (FxDevice : WDFDEVICE)
    (raw l l' : list CM_PARTIAL_RESOURCE_DESCRIPTOR) (w : World) :
  let w1 := snd (OnPrepareHardware FxDevice raw l w) in
  let w2 := snd (OnReleaseHardware FxDevice l' w1) in
  let w3 := snd (OnPrepareHardware FxDevice raw l w2) in
  I2CContext (devContext w3) = I2CContext (devContext w1) /\
  ResetGpioId (devContext w3) = ResetGpioId (devContext w1) /\
  HasResetGpio (devContext w3) = HasResetGpio (devContext w1).
Proof.
  intros w1 w2 w3. subst w3.
  destruct (OnPrepareHardware_fields FxDevice raw l w2) as (-> & -> & ->).
  assert (devContext w2 = devContext w1) as ->.
  { subst w2. by rewrite OnReleaseHardware_eq. }
  subst w1.
  destruct (OnPrepareHardware_fields FxDevice raw l w) as (HI & HG & HH).
  unfold resolved in *. cbn [I2CContext ResetGpioId HasResetGpio] in *.
  rewrite HI, HG, HH.
  split; [|split].
  - by destruct (last (filter is_I2C l)).
  - by destruct (last (filter is_GPIO l)).
  - by destruct (existsb is_GPIO l).
Qed.

(** X15. The bus ID is stored without loss: for the last Serial/I2C descriptor
    of the list, with its ID parts in the range of a [ULONG], [LowPart] is
    its [IdLowPart], the low 32 bits of [HighPart] are its [IdHighPart], and
    [HighPart] is negative exactly when [IdHighPart] has its top bit set. *)
Theorem OnPrepareHardware_stores_bus_id
    (FxDevice : WDFDEVICE)
    (FxResourcesRaw l : list CM_PARTIAL_RESOURCE_DESCRIPTOR) (w : World)
    (res : CM_PARTIAL_RESOURCE_DESCRIPTOR) :
  last (filter is_I2C l) = Some res ->
  0 <= IdLowPart res < 2 ^ 32 ->
  0 <= IdHighPart res < 2 ^ 32 ->
  let id :=
    I2cResHubId
      (I2CContext (devContext (snd (OnPrepareHardware FxDevice FxResourcesRaw l w)))) in
  LowPart id = IdLowPart res /\
  uint32 (HighPart id) = IdHighPart res /\
  - 2 ^ 31 <= HighPart id < 2 ^ 31 /\
  (HighPart id < 0 <-> 2 ^ 31 <= IdHighPart res).
Proof.
  intros Hlast Hl Hh id. subst id.
  destruct (OnPrepareHardware_fields FxDevice FxResourcesRaw l w) as (-> & _).
  unfold resolved. cbn [I2CContext]. rewrite Hlast. cbn [from_option I2cResHubId].
  destruct (ConnectionId_bits res Hl Hh) as [-> ->].
  do 2 (split; [done|]).
  unfold ConnectionId, sint32. cbn [HighPart].
  destruct (Z_lt_le_dec (IdHighPart res) (2 ^ 31)).
  - rewrite Z.mod_small by lia. lia.
  - replace (IdHighPart res + 2 ^ 31) with (IdHighPart res - 2 ^ 31 + 1 * 2 ^ 32)
      by lia.
    rewrite Z_mod_plus_full, Z.mod_small by lia. lia.
Qed.

(** X16. [OnReleaseHardware] leaves one error trace for each of
    [TchStopDevice] and [TchFreeContext] that failed, carrying its status, and
    none otherwise; queues and device context are as before, so the touch
    context that was freed stays in the device context. *)
Theorem OnReleaseHardware_traces_failures
    (FxDevice : WDFDEVICE)
    (FxResourcesTranslated : list CM_PARTIAL_RESOURCE_DESCRIPTOR) (w : World) :
  let c := devContext w in
  let stopped := TchStopDevice (TouchContext c) (I2CContext c) (engine w) in
  let freed := TchFreeContext (TouchContext c) (snd stopped) in
  let w' := snd (OnReleaseHardware FxDevice FxResourcesTranslated w) in
  filter is_error_trace (since w w') =
    (if NT_SUCCESS (fst stopped) then []
     else [EvTrace TRACE_LEVEL_ERROR "Error stopping device - STATUS:%X"
             [fst stopped]])
    ++ (if NT_SUCCESS (fst freed) then []
        else [EvTrace TRACE_LEVEL_ERROR "Error freeing touch context - STATUS:%X"
                [fst freed]]) /\
  queues w' = queues w /\
  TouchContext (devContext w') = TouchContext c.
Proof.
  intros c stopped freed w'. subst w'. rewrite OnReleaseHardware_eq.
  fold c. fold stopped. fold freed. cbn [snd queues devContext].
  split; [|done].
  erewrite since_app by (cbn [calls]; reflexivity).
  destruct (NT_SUCCESS (fst stopped)), (NT_SUCCESS (fst freed)); reflexivity.
Qed.

End MorePrepare.

(** * What no callback does *)

Section Invariants.
Context `{IO : IoPlatform}.

Lemma kept_refl w : kept w w.
Proof. unfold kept. repeat split; try done. by exists 0%nat. Qed.

Lemma kept_trans w1 w2 w3 : kept w1 w2 -> kept w2 w3 -> kept w1 w3.
Proof.
  unfold kept.
  intros (Hd & Hm & Hq & Hg & Hf & Hh & Ho & k & Hp)
         (Hd' & Hm' & Hq' & Hg' & Hf' & Hh' & Ho' & k' & Hp').
  rewrite Hq in *.
  repeat split; try congruence; try tauto.
  exists (k + k')%nat. by rewrite Hp', Hp, drop_drop.
Qed.

Lemma kept_same_devContext w w' :
  devContext w' = devContext w -> queues w' = queues w -> kept w w'.
Proof.
  intros Hc Hq. unfold kept, pending. rewrite Hc, Hq.
  repeat split; try done. by exists 0%nat.
Qed.

Lemma kept_OnPrepareHardware d raw l w :
  kept w (snd (OnPrepareHardware d raw l w)).
Proof.
  rewrite OnPrepareHardware_eq.
  assert (forall t e ev,
            kept w (mkWorld (set_TouchContext t (resolved l (devContext w)))
                      (queues w) e ev)) as Hset.
  { intros t e ev. unfold kept, pending.
    cbn [devContext queues set_TouchContext resolved FxDevice InputMode
           PingPongQueue ResetGpio ServiceInterruptsAfterD0Entry HasResetGpio].
    repeat split; try done.
    - intros ->. by rewrite orb_true_r.
    - by exists 0%nat. }
  assert (forall e ev,
            kept w (mkWorld (resolved l (devContext w)) (queues w) e ev)) as Hres.
  { intros e ev. unfold kept, pending.
    cbn [devContext queues resolved FxDevice InputMode
           PingPongQueue ResetGpio ServiceInterruptsAfterD0Entry HasResetGpio].
    repeat split; try done.
    - intros ->. by rewrite orb_true_r.
    - by exists 0%nat. }
  destruct (existsb is_I2C l); [|apply Hres].
  rewrite bring_up_eq. cbn [devContext queues engine calls].
  repeat match goal with
         | |- context [if NT_SUCCESS ?x then _ else _] =>
             destruct (NT_SUCCESS x)
         end; cbn [snd]; auto.
Qed.

Lemma kept_OnInterruptIsr Interrupt MessageID w :
  kept w (snd (OnInterruptIsr Interrupt MessageID w)).
Proof.
  rewrite OnInterruptIsr_eq.
  destruct (NT_SUCCESS _); cbn [snd]; [|by apply kept_same_devContext].
  set (q := PingPongQueue (devContext w)).
  destruct (SendHidReports_touches_one_queue q
              (snd (fst (fst (serviced w)))) (snd (fst (serviced w)))
              (after_service w)) as (Ho & Hp & Hd & _).
  unfold kept. rewrite Hd. cbn [after_service devContext]. fold q.
  repeat split; try done. eexists. exact Hp.
Qed.

Lemma kept_invoke cb w : kept w (invoke cb w).
Proof.
  destruct cb; cbn [invoke].
  - apply kept_OnInterruptIsr.
  - rewrite OnD0Entry_eq. unfold kept, pending. cbn.
    repeat split; try done. by exists 0%nat.
  - rewrite OnD0Exit_eq. by apply kept_same_devContext.
  - apply kept_OnPrepareHardware.
  - rewrite OnReleaseHardware_eq. by apply kept_same_devContext.
Qed.

Lemma kept_invoke_all cbs : forall w, kept w (invoke_all cbs w).
Proof.
  induction cbs as [|cb cbs IH]; intros w; [apply kept_refl|].
  cbn [invoke_all foldl]. eapply kept_trans; [apply kept_invoke|apply IH].
Qed.

(** X17. No sequence of callbacks rewires the driver: the framework device, the
    input mode, the ping-pong queue handle and the reset GPIO target of the
    device context stay, every queue but the ping-pong queue is as it was,
    and the ping-pong queue only loses requests from its front. *)
Theorem callbacks_keep_wiring (cbs : list Callback) (w : World) :
  let c := devContext w in
  let c' := devContext (invoke_all cbs w) in
  FxDevice c' = FxDevice c /\
  InputMode c' = InputMode c /\
  PingPongQueue c' = PingPongQueue c /\
  ResetGpio c' = ResetGpio c /\
  delete (PingPongQueue c) (queues (invoke_all cbs w)) =
    delete (PingPongQueue c) (queues w) /\
  exists k,
    pending (PingPongQueue c) (invoke_all cbs w) =
      drop k (pending (PingPongQueue c) w).
Proof.
  intros c c'. subst c c'.
  destruct (kept_invoke_all cbs w) as (Hd & Hm & Hq & Hg & _ & _ & Ho & Hp).
  done.
Qed.

(** X18. No callback clears a flag: [ServiceInterruptsAfterD0Entry] and
    [HasResetGpio], once TRUE, are TRUE after every sequence of callbacks, and
    after a sequence in which [OnD0Entry] ran the first of them is TRUE. *)
Theorem callbacks_never_clear_flags (cbs : list Callback) (w : World) :
  (ServiceInterruptsAfterD0Entry (devContext w) = true ->
   ServiceInterruptsAfterD0Entry (devContext (invoke_all cbs w)) = true) /\
  (HasResetGpio (devContext w) = true ->
   HasResetGpio (devContext (invoke_all cbs w)) = true) /\
  (forall before Device PreviousState,
     ServiceInterruptsAfterD0Entry
       (devContext
          (invoke_all (before ++ CbD0Entry Device PreviousState :: cbs) w)) = true).
Proof.
  destruct (kept_invoke_all cbs w) as (_ & _ & _ & _ & Hf & Hh & _).
  split; [done|]. split; [done|].
  intros before Device PreviousState.
  unfold invoke_all. rewrite foldl_app. cbn [foldl invoke].
  destruct (kept_invoke_all cbs
              (snd (OnD0Entry Device PreviousState
                      (foldl (fun w cb => invoke cb w) w before))))
    as (_ & _ & _ & _ & Hf' & _).
  apply Hf'. by rewrite OnD0Entry_eq.
Qed.

End Invariants.

(** * Opening an I/O target *)

Section MoreIo.
Context `{IO : IoPlatform}.

Lemma OpenIOTarget_eq ctx res use target w :
  let p := RESOURCE_HUB_CREATE_PATH_FROM_ID (LowPart res) (HighPart res) in
  let cr := WdfIoTargetCreate (FxDevice ctx) target (engine w) in
  let op := WdfIoTargetOpen (snd (fst cr)) (snd p) use (snd cr) in
  OpenIOTarget ctx res use target w =
    if NT_SUCCESS (fst p) then
      if NT_SUCCESS (fst (fst cr)) then
        ((fst op, snd (fst cr)),
         mkWorld (devContext w) (queues w) (snd op)
           (calls w
              ++ [entry_trace]
              ++ (if NT_SUCCESS (fst op) then []
                  else [EvTrace TRACE_LEVEL_INFORMATION
                          "WdfIoTargetOpen failed 0x%x" [fst op]])
              ++ [exit_trace]))
      else
        ((fst (fst cr), snd (fst cr)),
         mkWorld (devContext w) (queues w) (snd cr)
           (calls w
              ++ [entry_trace;
                  EvTrace TRACE_LEVEL_INFORMATION "WdfIoTargetCreate failed 0x%x"
                    [fst (fst cr)];
                  exit_trace]))
    else
      ((fst p, target),
       mkWorld (devContext w) (queues w) (engine w)
         (calls w
            ++ [entry_trace;
                EvTrace TRACE_LEVEL_INFORMATION
                  "RESOURCE_HUB_CREATE_PATH_FROM_ID failed 0x%x" [fst p];
                exit_trace])).
Proof.
  intros p cr op. subst op cr p.
  unfold OpenIOTarget, Trace, emit, on_engine, bind, ret.
  cbn [devContext queues engine calls].
  destruct (RESOURCE_HUB_CREATE_PATH_FROM_ID _ _) as [status path].
  cbn [fst snd].
  destruct (NT_SUCCESS status); cbn [negb].
  - destruct (WdfIoTargetCreate _ _ _) as [[status2 target2] e2].
    cbn [fst snd devContext queues engine calls].
    destruct (NT_SUCCESS status2); cbn [negb].
    + destruct (WdfIoTargetOpen _ _ _ _) as [status3 e3].
      cbn [fst snd devContext queues engine calls].
      destruct (NT_SUCCESS status3);
        cbn [negb fst snd devContext queues engine calls];
        rewrite <- ?app_assoc; reflexivity.
    + cbn [fst snd devContext queues engine calls].
      rewrite <- ?app_assoc. reflexivity.
  - cbn [fst snd devContext queues engine calls].
    rewrite <- ?app_assoc. reflexivity.
Qed.

(** X19. [OpenIOTarget] stops at its first failing step. It succeeds exactly
    when making the path, creating the target and opening it all succeed;
    when a step fails, its status is returned and the engine is as that step
    left it, so when the path cannot be made no target is created and the
    handle is the one passed in. The entry trace is its first call record and
    the exit trace its last, and device context and queues are as before. *)
Theorem OpenIOTarget_first_failure
    (ctx : DEVICE_EXTENSION) (res : LARGE_INTEGER) (use : Z) (target : WDFIOTARGET)
    (w : World) :
  let p := RESOURCE_HUB_CREATE_PATH_FROM_ID (LowPart res) (HighPart res) in
  let cr := WdfIoTargetCreate (FxDevice ctx) target (engine w) in
  let op := WdfIoTargetOpen (snd (fst cr)) (snd p) use (snd cr) in
  let r := OpenIOTarget ctx res use target w in
  (NT_SUCCESS (fst (fst r)) = true <->
   NT_SUCCESS (fst p) = true /\ NT_SUCCESS (fst (fst cr)) = true /\
   NT_SUCCESS (fst op) = true) /\
  (NT_SUCCESS (fst p) = false ->
   fst r = (fst p, target) /\ engine (snd r) = engine w) /\
  (NT_SUCCESS (fst p) = true -> NT_SUCCESS (fst (fst cr)) = false ->
   fst r = (fst (fst cr), snd (fst cr)) /\ engine (snd r) = snd cr) /\
  (NT_SUCCESS (fst p) = true -> NT_SUCCESS (fst (fst cr)) = true ->
   fst r = (fst op, snd (fst cr)) /\ engine (snd r) = snd op) /\
  head (since w (snd r)) = Some entry_trace /\
  last (since w (snd r)) = Some exit_trace /\
  devContext (snd r) = devContext w /\
  queues (snd r) = queues w.
Proof.
  intros p cr op r. subst r. rewrite OpenIOTarget_eq. fold p. fold cr. fold op.
  destruct (NT_SUCCESS (fst p)) eqn:H1.
  - destruct (NT_SUCCESS (fst (fst cr))) eqn:H2.
    + cbn [fst snd devContext queues engine]. rewrite since_mkWorld.
      destruct (NT_SUCCESS (fst op)) eqn:H3;
        repeat split; try done; try tauto; try congruence.
      all: by intros (_ & _ & ?).
    + cbn [fst snd devContext queues engine]. rewrite since_mkWorld, H2.
      repeat split; try done; try tauto; try congruence.
      all: by intros (_ & ? & _).
  - cbn [fst snd devContext queues engine]. rewrite since_mkWorld, H1.
    repeat split; try done; try tauto; try congruence.
    all: by intros (? & _).
Qed.

End MoreIo.

(** * The further properties at concrete inputs *)

Lemma SendHidReports_buffer_bounds_witness :
  exists request' status,
    completed
      (since Concrete.mixed_world
         (snd (SendHidReports (P := Scenario.healthy 3) 5%N Scenario.reports 3
                 Concrete.mixed_world))) !! 0%nat =
      Some (request', status) /\
    Handle request' = 10%N /\
    length (OutputBuffer request') = 3%nat.
Proof.
  destruct (SendHidReports_buffer_bounds (P := Scenario.healthy 3) 5%N
              Scenario.reports 3 Concrete.mixed_world 0 (Scenario.request 10 3))
    as (request' & status & Hc & Hh & Hl & _).
  - vm_compute. lia.
  - reflexivity.
  - exists request', status. repeat split; assumption.
Defined.

Lemma SendHidReports_empty_queue_witness :
  dropped
    (since ScenarioIo.starved_world
       (snd (SendHidReports (P := Scenario.healthy 3) 5%N Scenario.reports
               (Z.of_nat 3) ScenarioIo.starved_world))) = 3%nat.
Proof.
  pose proof (SendHidReports_empty_queue (P := Scenario.healthy 3) 5%N
                Scenario.reports 3 ScenarioIo.starved_world eq_refl) as H.
  cbv zeta in H. destruct H as (_ & _ & _ & _ & _ & Hd & _). exact Hd.
Defined.

Lemma OnInterruptIsr_no_reports_witness :
  OnInterruptIsr 0%N 0 ScenarioIo.negative_world =
    (true, after_service ScenarioIo.negative_world).
Proof.
  apply (OnInterruptIsr_no_reports (P := ScenarioIo.negative_count)).
  - reflexivity.
  - vm_compute. discriminate.
Defined.

Lemma OnPrepareHardware_first_failure_witness :
  exists k s1 s2 s3 t,
    (1 <= k <= 3)%nat /\
    filter is_bring_up_call
      (since ScenarioIo.failing_alloc_world
         (snd (OnPrepareHardware 1%N [] [Scenario.I2C 9 0]
                 ScenarioIo.failing_alloc_world))) =
      take k
        [EvSpbTargetInitialize 1%N
           (I2CContext
              (resolved [Scenario.I2C 9 0]
                 (devContext ScenarioIo.failing_alloc_world))) s1;
         EvTchAllocateContext 1%N s2 t;
         EvTchStartDevice t
           (I2CContext
              (resolved [Scenario.I2C 9 0]
                 (devContext ScenarioIo.failing_alloc_world))) s3] /\
    [s1; s2; s3] !! (k - 1)%nat = Some STATUS_INSUFFICIENT_RESOURCES.
Proof.
  destruct (OnPrepareHardware_first_failure (P := ScenarioIo.failing_alloc)
              1%N [] [Scenario.I2C 9 0] ScenarioIo.failing_alloc_world)
    as (k & s1 & s2 & s3 & t & Hk & Hcalls & _ & _ & _ & Hlast & _).
  - reflexivity.
  - exists k, s1, s2, s3, t. split; [exact Hk|]. split; [exact Hcalls|].
    exact Hlast.
Defined.

Lemma prepare_release_pairing_witness :
  exists t spb s1 s2 s3 s4 s5,
    filter is_bring_up_call
      (since Concrete.idle_world
         (snd (OnPrepareHardware 1%N [] [Scenario.I2C 9 0] Concrete.idle_world))) =
      [EvSpbTargetInitialize 1%N spb s1; EvTchAllocateContext 1%N s2 t;
       EvTchStartDevice t spb s3] /\
    filter is_teardown_step
      (since
         (snd (OnPrepareHardware 1%N [] [Scenario.I2C 9 0] Concrete.idle_world))
         (snd (OnReleaseHardware 1%N []
                 (snd (OnPrepareHardware 1%N [] [Scenario.I2C 9 0]
                         Concrete.idle_world))))) =
      [EvTchStopDevice t spb s4; EvTchFreeContext t s5;
       EvSpbTargetDeinitialize 1%N spb].
Proof.
  pose proof (prepare_release_pairing (P := Scenario.healthy 0) 1%N []
                [Scenario.I2C 9 0] [] Concrete.idle_world eq_refl) as H.
  cbv zeta in H.
  destruct H as (t & spb & s1 & s2 & s3 & s4 & s5 & H1 & H2 & _).
  exists t, spb, s1, s2, s3, s4, s5. split; assumption.
Defined.

Lemma OnPrepareHardware_keeps_unnamed_witness :
  I2CContext
    (devContext
       (snd (OnPrepareHardware 1%N [] [Scenario.IRQ] ScenarioIo.armed_world))) =
    I2CContext (devContext ScenarioIo.armed_world) /\
  HasResetGpio
    (devContext
       (snd (OnPrepareHardware 1%N [] [Scenario.IRQ] ScenarioIo.armed_world))) =
    true.
Proof.
  pose proof (OnPrepareHardware_keeps_unnamed (P := Scenario.healthy 0) 1%N []
                [Scenario.IRQ] ScenarioIo.armed_world) as H.
  cbv zeta in H. destruct H as (HI & _ & HH).
  split; [apply HI|apply HH]; reflexivity.
Defined.

Lemma OnPrepareHardware_class_order_witness :
  OnPrepareHardware 1%N [] [Scenario.GPIO 8 0; Scenario.I2C 9 0]
    Concrete.idle_world =
  OnPrepareHardware 1%N [] [Scenario.I2C 9 0; Scenario.IRQ; Scenario.GPIO 8 0]
    Concrete.idle_world.
Proof.
  apply (OnPrepareHardware_class_order (P := Scenario.healthy 0)); reflexivity.
Defined.

Lemma OnPrepareHardware_stores_bus_id_witness :
  LowPart
    (I2cResHubId
       (I2CContext
          (devContext
             (snd (OnPrepareHardware 1%N [] [Scenario.I2C 3 0xFFFFFFFF]
                     Concrete.idle_world))))) = 3 /\
  HighPart
    (I2cResHubId
       (I2CContext
          (devContext
             (snd (OnPrepareHardware 1%N [] [Scenario.I2C 3 0xFFFFFFFF]
                     Concrete.idle_world))))) < 0.
Proof.
  pose proof (OnPrepareHardware_stores_bus_id (P := Scenario.healthy 0) 1%N []
                [Scenario.I2C 3 0xFFFFFFFF] Concrete.idle_world
                (Scenario.I2C 3 0xFFFFFFFF) eq_refl) as H.
  cbv zeta in H. destruct H as (Hl & _ & _ & Hneg).
  - vm_compute. split; [discriminate|reflexivity].
  - vm_compute. split; [discriminate|reflexivity].
  - split; [exact Hl|]. apply Hneg. vm_compute. discriminate.
Defined.

Lemma callbacks_never_clear_flags_witness :
  ServiceInterruptsAfterD0Entry
    (devContext
       (invoke_all (IO := ScenarioIo.healthy_io) ScenarioIo.busy_day
          ScenarioIo.armed_world)) = true /\
  HasResetGpio
    (devContext
       (invoke_all (IO := ScenarioIo.healthy_io) ScenarioIo.busy_day
          ScenarioIo.armed_world)) = true.
Proof.
  destruct (callbacks_never_clear_flags (IO := ScenarioIo.healthy_io)
              ScenarioIo.busy_day ScenarioIo.armed_world) as (Hf & Hh & _).
  split; [apply Hf|apply Hh]; reflexivity.
Defined.

Lemma OpenIOTarget_first_failure_witness :
  fst (OpenIOTarget (IO := ScenarioIo.failing_create) Scenario.context
         Scenario.zero 3 0%N Concrete.idle_world) =
    (STATUS_UNSUCCESSFUL, 9%N) /\
  engine
    (snd (OpenIOTarget (IO := ScenarioIo.failing_create) Scenario.context
            Scenario.zero 3 0%N Concrete.idle_world)) = 1%nat.
Proof.
  pose proof (OpenIOTarget_first_failure (IO := ScenarioIo.failing_create)
                Scenario.context Scenario.zero 3 0%N Concrete.idle_world) as H.
  cbv zeta in H. destruct H as (_ & _ & Hcreate & _).
  apply Hcreate; reflexivity.
Defined.
